(** * Email aggregation back end: ingestion pipeline, search and reply engine

    A shallow embedding of [src/main.py].  The Python module drives five
    external collaborators (Elasticsearch, ChromaDB, the OpenAI chat API,
    Slack and an HTTP webhook).  Their observable effects are kept in an
    explicit [World]; what they answer is supplied by an [Env] record, so
    every statement below holds for whatever the collaborators do.  Python
    exceptions are modelled by a state-and-exception monad in which the
    state survives a raise, as it does in Python. *)

From Stdlib Require Import ZArith QArith String List Lia.
From Stdlib Require Import DecimalString DecimalNat DecimalFacts.
From stdpp Require Import base strings list gmap.

Open Scope string_scope.
Open Scope list_scope.

(** ** Values and exceptions *)

(** [datetime] objects are kept abstract: a point in time. *)
Definition datetime := Z.

(** The values that occur in the dictionaries of [main.py]. *)
Inductive value :=
  | VNone
  | VStr (s : string)
  | VDate (d : datetime).

#[global] Instance value_eq_dec : EqDecision value.
Proof. solve_decision. Defined.

(** The exception classes the module can meet.  All of them derive from
    Python's [Exception]; [OtherError] stands for every class not named
    here (time-outs, connection errors, upstream API errors, ...). *)
Inductive exn :=
  | SlackApiError (msg : string)
  | IndexError
  | KeyError (key : string)
  | ValidationError (field : string)
  | OtherError (cls msg : string).

#[global] Instance exn_eq_dec : EqDecision exn.
Proof. solve_decision. Defined.

(** [isinstance(e, SlackApiError)] and [isinstance(e, Exception)]. *)
Definition is_SlackApiError (e : exn) : bool :=
  match e with SlackApiError _ => true | _ => false end.

Definition is_Exception (e : exn) : bool := true.

(** [str(e)], as interpolated by the two [print] calls. *)
Definition exn_str (e : exn) : string :=
  match e with
  | SlackApiError msg => msg
  | IndexError => "list index out of range"
  | KeyError key => "'" +:+ key +:+ "'"
  | ValidationError field => field +:+ ": field required"
  | OtherError _ msg => msg
  end.

Inductive Result (A : Type) :=
  | Ok (a : A)
  | Raise (e : exn).
Arguments Ok {A} a.
Arguments Raise {A} e.

(** ** Data models (lines 43-64) *)

Module Email.

Record t := mk {
  uid : string;
  subject : string;
  body : string;
  from_ : string;
  to : string;
  date : datetime;
  folder : string;
  account : string;
  category : option string
}.

(** [email.category = c] (line 304): assignment to one attribute. *)
Definition set_category (c : option string) (e : t) : t :=
  mk (uid e) (subject e) (body e) (from_ e) (to e) (date e) (folder e)
     (account e) c.

End Email.

Module SearchQuery.

Record t := mk {
  text : string;
  account : option string;
  folder : option string;
  category : option string
}.

End SearchQuery.

Definition opt_value (o : option string) : value :=
  match o with Some s => VStr s | None => VNone end.

(** [email.dict()]: one entry per declared field, under the field's name. *)
Definition email_dict (e : Email.t) : gmap string value :=
  list_to_map
    [ ("uid", VStr (Email.uid e));
      ("subject", VStr (Email.subject e));
      ("body", VStr (Email.body e));
      ("from_", VStr (Email.from_ e));
      ("to", VStr (Email.to e));
      ("date", VDate (Email.date e));
      ("folder", VStr (Email.folder e));
      ("account", VStr (Email.account e));
      ("category", opt_value (Email.category e)) ].

(** ** The world of the collaborators *)

(** Embedding vectors; only ever handed back to the vector store. *)
Definition Embedding := list Q.

Record ChatRequest := {
  model : string;
  content : string;        (* the single user message *)
  temperature : Q
}.

(** [response.choices], each choice reduced to [message.content]. *)
Definition ChatResponse := list (option string).

Record SlackMessage := {
  channel : string;
  slack_text : string;
  blocks : list string     (* the mrkdwn text of each section block *)
}.

Record WebhookRequest := {
  url : option string;
  event : string;
  data : gmap string value;
  timeout : Z
}.

Record ChromaRecord := {
  cid : string;
  document : string;
  embedding : Embedding;
  metadata : option (gmap string value)
}.

Inductive Collection := EmailCollection | KnowledgeCollection.

Record World := {
  es_emails : list (gmap string value);  (* documents of index "emails", oldest first *)
  es_index_calls : nat;                  (* [es.index] requests issued so far *)
  email_collection : list ChromaRecord;
  knowledge_collection : list ChromaRecord;
  openai_requests : list ChatRequest;
  slack_posts : list SlackMessage;       (* [chat_postMessage] calls issued *)
  webhook_posts : list WebhookRequest;   (* [requests.post] calls issued *)
  stdout : list string
}.

Definition empty_world : World :=
  {| es_emails := []; es_index_calls := 0; email_collection := [];
     knowledge_collection := []; openai_requests := []; slack_posts := [];
     webhook_posts := []; stdout := [] |}.

(** The part of the Elasticsearch query DSL that [search] builds. *)
Inductive clause :=
  | Match (field text : string)    (* {"match": {field: text}} *)
  | Term (field val : string).     (* {"term": {field: val}} *)

Record BoolQuery := {
  must : list clause;
  filters : list clause            (* the "filter" list *)
}.

(** What the collaborators answer.  Each fallible call may depend on the
    whole history recorded in the world. *)
Record Env := {
  openai_create : World -> ChatRequest -> Result ChatResponse;
  es_index_error : World -> gmap string value -> option exn;
  es_match : string -> string -> bool;   (* analysed full-text match: query text, field text *)
  es_rank : BoolQuery -> list (gmap string value) -> list (gmap string value);
  es_search_error : World -> option exn;
  chroma_add_error : World -> Collection -> string -> option exn;
  chroma_query_error : World -> option exn;
  chroma_default_ef : string -> Embedding;
  chroma_distance : Embedding -> Embedding -> Q;
  embedder_encode : string -> Embedding;
  slack_error : World -> SlackMessage -> option exn;
  requests_error : World -> WebhookRequest -> option exn;
  webhook_url : option string;
  parse_datetime : string -> option datetime
}.

(** ** State and exception monad *)

Definition M (A : Type) : Type := World -> Result A * World.

#[global] Instance M_ret : MRet M := fun A a w => (Ok a, w).

#[global] Instance M_bind : MBind M := fun A B f m w =>
  match m w with
  | (Ok a, w') => f a w'
  | (Raise e, w') => (Raise e, w')
  end.

Definition raise {A} (e : exn) : M A := fun w => (Raise e, w).

(** [try: body  except <class> as e: handler e]. *)
Definition try_except {A} (body : M A) (catches : exn -> bool)
    (handler : exn -> M A) : M A := fun w =>
  match body w with
  | (Raise e, w') => if catches e then handler e w' else (Raise e, w')
  | r => r
  end.

(** [print(s)]. *)
Definition print (s : string) : M unit := fun w =>
  (Ok tt,
   {| es_emails := es_emails w; es_index_calls := es_index_calls w;
      email_collection := email_collection w;
      knowledge_collection := knowledge_collection w;
      openai_requests := openai_requests w; slack_posts := slack_posts w;
      webhook_posts := webhook_posts w; stdout := stdout w ++ [s] |}).

(** [l[i]]. *)
Definition list_index {A} (l : list A) (i : nat) : M A :=
  match l !! i with
  | Some a => mret a
  | None => raise IndexError
  end.

(** [d.pop(k)]: the value and the dictionary without the key. *)
Definition dict_pop (k : string) (d : gmap string value)
    : M (value * gmap string value) :=
  match d !! k with
  | Some v => mret (v, delete k d)
  | None => raise (KeyError k)
  end.

(** [s[:n]] (counted in the characters of the embedding's strings). *)
Definition prefix (n : nat) (s : string) : string := String.substring 0 n s.

(** ** The collaborators' operations *)

Definition set_es (docs : list (gmap string value)) (calls : nat) (w : World)
    : World :=
  {| es_emails := docs; es_index_calls := calls;
     email_collection := email_collection w;
     knowledge_collection := knowledge_collection w;
     openai_requests := openai_requests w; slack_posts := slack_posts w;
     webhook_posts := webhook_posts w; stdout := stdout w |}.

Definition set_collection (c : Collection) (l : list ChromaRecord) (w : World)
    : World :=
  {| es_emails := es_emails w; es_index_calls := es_index_calls w;
     email_collection :=
       match c with EmailCollection => l | _ => email_collection w end;
     knowledge_collection :=
       match c with KnowledgeCollection => l | _ => knowledge_collection w end;
     openai_requests := openai_requests w; slack_posts := slack_posts w;
     webhook_posts := webhook_posts w; stdout := stdout w |}.

Definition log_openai (r : ChatRequest) (w : World) : World :=
  {| es_emails := es_emails w; es_index_calls := es_index_calls w;
     email_collection := email_collection w;
     knowledge_collection := knowledge_collection w;
     openai_requests := openai_requests w ++ [r]; slack_posts := slack_posts w;
     webhook_posts := webhook_posts w; stdout := stdout w |}.

Definition log_slack (m : SlackMessage) (w : World) : World :=
  {| es_emails := es_emails w; es_index_calls := es_index_calls w;
     email_collection := email_collection w;
     knowledge_collection := knowledge_collection w;
     openai_requests := openai_requests w; slack_posts := slack_posts w ++ [m];
     webhook_posts := webhook_posts w; stdout := stdout w |}.

Definition log_webhook (r : WebhookRequest) (w : World) : World :=
  {| es_emails := es_emails w; es_index_calls := es_index_calls w;
     email_collection := email_collection w;
     knowledge_collection := knowledge_collection w;
     openai_requests := openai_requests w; slack_posts := slack_posts w;
     webhook_posts := webhook_posts w ++ [r]; stdout := stdout w |}.

(** [es.index(index="emails", document=doc)].  The call passes no [id], so
    Elasticsearch stores the document under a freshly generated identifier:
    a successful call adds one document and replaces none. *)
Definition es_index (env : Env) (doc : gmap string value) : M unit := fun w =>
  match es_index_error env w doc with
  | Some e => (Raise e, set_es (es_emails w) (S (es_index_calls w)) w)
  | None => (Ok tt, set_es (es_emails w ++ [doc]) (S (es_index_calls w)) w)
  end.

Definition clause_holds (env : Env) (doc : gmap string value) (c : clause)
    : bool :=
  match c with
  | Match f t =>
      match doc !! f with Some (VStr s) => es_match env t s | _ => false end
  | Term f v => bool_decide (doc !! f = Some (VStr v))
  end.

(** A bool query selects the documents on which all [must] and all [filter]
    clauses hold (with no clause at all: every document). *)
Definition bool_query_holds (env : Env) (q : BoolQuery)
    (doc : gmap string value) : bool :=
  forallb (clause_holds env doc) (must q)
  && forallb (clause_holds env doc) (filters q).

(** [es.search(index="emails", body=...)["hits"]["hits"]], each hit reduced
    to its [_source]: the selected documents in score order, ten at most
    (the default page size). *)
Definition es_search (env : Env) (q : BoolQuery)
    : M (list (gmap string value)) := fun w =>
  match es_search_error env w with
  | Some e => (Raise e, w)
  | None =>
      (Ok (take 10 (es_rank env q
                      (List.filter (bool_query_holds env q) (es_emails w)))), w)
  end.

Definition collection_get (c : Collection) (w : World) : list ChromaRecord :=
  match c with
  | EmailCollection => email_collection w
  | KnowledgeCollection => knowledge_collection w
  end.

(** [collection.add(ids=[id], documents=[doc], ...)].  A record whose id the
    collection already holds is not added; without [embeddings] the
    collection's default embedding function is applied to the document. *)
Definition chroma_add (env : Env) (c : Collection) (id doc : string)
    (emb : option Embedding) (meta : option (gmap string value)) : M unit :=
  fun w =>
  match chroma_add_error env w c id with
  | Some e => (Raise e, w)
  | None =>
      if bool_decide (id ∈ cid <$> collection_get c w) then (Ok tt, w)
      else
        let r := {| cid := id; document := doc;
                    embedding := default (chroma_default_ef env doc) emb;
                    metadata := meta |} in
        (Ok tt, set_collection c (collection_get c w ++ [r]) w)
  end.

(** [collection.get()["ids"]]. *)
Definition chroma_get_ids (c : Collection) : M (list string) := fun w =>
  (Ok (cid <$> collection_get c w), w).

(** Insertion by distance to the query: a record goes behind every record
    that is at most as far.  The order this gives to records at equal
    distance is a choice of the model, not a promise of the store; no
    statement below depends on it. *)
Fixpoint insert_by_distance (env : Env) (q : Embedding) (r : ChromaRecord)
    (l : list ChromaRecord) : list ChromaRecord :=
  match l with
  | [] => [r]
  | x :: l' =>
      if Qle_bool (chroma_distance env q (embedding x))
                  (chroma_distance env q (embedding r))
      then x :: insert_by_distance env q r l'
      else r :: l
  end.

Definition nearest (env : Env) (q : Embedding) (n : nat)
    (l : list ChromaRecord) : list ChromaRecord :=
  take n (foldl (fun acc r => insert_by_distance env q r acc) [] l).

(** [collection.query(query_embeddings=qs, n_results=n)["documents"]]: for
    each query embedding the documents of the [n] nearest records. *)
Definition chroma_query (env : Env) (c : Collection) (qs : list Embedding)
    (n : nat) : M (list (list string)) := fun w =>
  match chroma_query_error env w with
  | Some e => (Raise e, w)
  | None =>
      (Ok ((fun q => document <$> nearest env q n (collection_get c w)) <$> qs),
       w)
  end.

(** [config.openai.chat.completions.create(...)]. *)
Definition chat_completions_create (env : Env) (r : ChatRequest)
    : M ChatResponse := fun w =>
  (openai_create env w r, log_openai r w).

(** [config.slack.chat_postMessage(...)]. *)
Definition chat_postMessage (env : Env) (m : SlackMessage) : M unit := fun w =>
  match slack_error env w m with
  | Some e => (Raise e, log_slack m w)
  | None => (Ok tt, log_slack m w)
  end.

(** [requests.post(url, json=..., timeout=...)]. *)
Definition requests_post (env : Env) (r : WebhookRequest) : M unit := fun w =>
  match requests_error env w r with
  | Some e => (Raise e, log_webhook r w)
  | None => (Ok tt, log_webhook r w)
  end.

(** ** Services (lines 109-268) *)

(** Truth value of a [str] and of an [Optional[str]] in an [if]. *)
Definition str_truthy (s : string) : bool := negb (bool_decide (s = "")).

Definition opt_truthy (o : option string) : bool :=
  match o with Some s => str_truthy s | None => false end.

(** [str(n)] for a non-negative [int]. *)
Definition str (n : nat) : string := NilEmpty.string_of_uint (Nat.to_uint n).

(** [EmailSearchService.index_email] (lines 134-137). *)
Definition index_email (env : Env) (email : Email.t) : M unit :=
  let doc := email_dict email in
  '(v, doc) ← dict_pop "from_" doc;
  let doc := <["from" := v]> doc in
  es_index env doc.

(** The constructor call of line 162, which builds an [Email] from the keys
    of a hit's [_source]: required fields must be present, [folder] and
    [category] have defaults, unknown keys are ignored. *)
Definition required_str (src : gmap string value) (k : string) : M string :=
  match src !! k with
  | Some (VStr s) => mret s
  | _ => raise (ValidationError k)
  end.

Definition email_of_source (env : Env) (src : gmap string value)
    : M Email.t :=
  uid ← required_str src "uid";
  subject ← required_str src "subject";
  body ← required_str src "body";
  from_ ← required_str src "from_";
  to ← required_str src "to";
  date ← match src !! "date" with
         | Some (VDate d) => mret d
         | Some (VStr s) =>
             match parse_datetime env s with
             | Some d => mret d
             | None => raise (ValidationError "date")
             end
         | _ => raise (ValidationError "date")
         end;
  folder ← match src !! "folder" with
           | None => mret "INBOX"
           | Some (VStr s) => mret s
           | _ => raise (ValidationError "folder")
           end;
  account ← required_str src "account";
  category ← match src !! "category" with
             | None | Some VNone => mret None
             | Some (VStr s) => mret (Some s)
             | _ => raise (ValidationError "category")
             end;
  mret (Email.mk uid subject body from_ to date folder account category).

(** The query body built by [EmailSearchService.search] (lines 140-159). *)
Definition search_body (query : SearchQuery.t) : BoolQuery :=
  let must := [] in
  let must :=
    if str_truthy (SearchQuery.text query)
    then must ++ [Match "body" (SearchQuery.text query)] else must in
  let filters := [] in
  let filters :=
    if opt_truthy (SearchQuery.account query)
    then filters ++ [Term "account" (default "" (SearchQuery.account query))]
    else filters in
  let filters :=
    if opt_truthy (SearchQuery.folder query)
    then filters ++ [Term "folder" (default "" (SearchQuery.folder query))]
    else filters in
  let filters :=
    if opt_truthy (SearchQuery.category query)
    then filters ++ [Term "category" (default "" (SearchQuery.category query))]
    else filters in
  {| must := must; filters := filters |}.

(** [EmailSearchService.search] (lines 139-162). *)
Definition search (env : Env) (query : SearchQuery.t) : M (list Email.t) :=
  hits ← es_search env (search_body query);
  mapM (email_of_source env) hits.

Definition categorize_prompt (email : Email.t) : string :=
  "Categorize this email into one of these categories:
        - Interested
        - Meeting Booked
        - Not Interested
        - Spam
        - Out of Office
        
        Email:
        Subject: " +:+ Email.subject email +:+ "
        Body: " +:+ prefix 1000 (Email.body email) +:+ "
        
        Respond only with the category name.".

(** [AICategorizer.categorize] (lines 165-186). *)
Definition categorize (env : Env) (email : Email.t) : M (option string) :=
  let prompt := categorize_prompt email in
  response ← chat_completions_create env
    {| model := "gpt-3.5-turbo"; content := prompt; temperature := 0 |};
  category ← list_index response 0;
  mret category.

Definition slack_message (email : Email.t) : SlackMessage :=
  {| channel := "#email-notifications";
     slack_text := "New Interested Email from " +:+ Email.from_ email;
     blocks :=
       [ "*New Interested Email*
*From:* " +:+ Email.from_ email +:+ "
*Subject:* " +:+ Email.subject email;
         "*Preview:* " +:+ prefix 200 (Email.body email) +:+ "..." ] |}.

(** [NotificationService.send_slack_notification] (lines 189-212). *)
Definition send_slack_notification (env : Env) (email : Email.t) : M unit :=
  try_except
    (chat_postMessage env (slack_message email))
    is_SlackApiError
    (fun e => print ("Slack error: " +:+ exn_str e)).

Definition webhook_request (env : Env) (email : Email.t) : WebhookRequest :=
  {| url := webhook_url env;
     event := "email_interested";
     data := email_dict email;
     timeout := 5 |}.

(** [NotificationService.trigger_webhook] (lines 214-225). *)
Definition trigger_webhook (env : Env) (email : Email.t) : M unit :=
  try_except
    (requests_post env (webhook_request env email))
    is_Exception
    (fun e => print ("Webhook error: " +:+ exn_str e)).

(** [ReplySuggestor.add_knowledge] (lines 232-238). *)
Definition add_knowledge (env : Env) (text : string) : M unit :=
  let embedding := embedder_encode env text in
  ids ← chroma_get_ids KnowledgeCollection;
  chroma_add env KnowledgeCollection (str (length ids + 1)) text
    (Some embedding) None.

Definition reply_prompt (email : Email.t) (context : string) : string :=
  "Generate a professional reply to this email using the provided context.
        
        Email:
        Subject: " +:+ Email.subject email +:+ "
        Body: " +:+ prefix 1000 (Email.body email) +:+ "
        
        Context:
        " +:+ context +:+ "
        
        Suggested Reply:".

(** [ReplySuggestor.suggest_reply] (lines 240-268). *)
Definition suggest_reply (env : Env) (email : Email.t) : M (option string) :=
  let query_embedding := embedder_encode env (Email.body email) in
  results ← chroma_query env KnowledgeCollection [query_embedding] 1;
  documents0 ← list_index results 0;
  context ← list_index documents0 0;
  let prompt := reply_prompt email context in
  response ← chat_completions_create env
    {| model := "gpt-4"; content := prompt; temperature := 7 # 10 |};
  reply ← list_index response 0;
  mret reply.

(** ** The ingestion pipeline (lines 301-319) *)

(** [process_new_email].  The Python function returns [None] and leaves its
    result in the argument, whose [category] attribute it assigns; the
    record returned here is that argument after the call. *)
Definition process_new_email (env : Env) (email : Email.t) : M Email.t :=
  category ← categorize env email;
  let email := Email.set_category category email in
  _ ← index_email env email;
  _ ← chroma_add env EmailCollection (Email.uid email) (Email.body email) None
        (Some {[ "category" := opt_value (Email.category email) ]});
  if bool_decide (Email.category email = Some "Interested") then
    _ ← send_slack_notification env email;
    _ ← trigger_webhook env email;
    mret email
  else mret email.

(** ** Observations used in the statements *)

(** The document [index_email] hands to [es.index]. *)
Definition indexed_document (email : Email.t) : gmap string value :=
  <["from" := VStr (Email.from_ email)]> (delete "from_" (email_dict email)).

(** The metadata [process_new_email] stores with the body (line 313). *)
Definition email_metadata (email : Email.t) : gmap string value :=
  {[ "category" := opt_value (Email.category email) ]}.

(** The request [categorize] sends. *)
Definition categorize_request (email : Email.t) : ChatRequest :=
  {| model := "gpt-3.5-turbo"; content := categorize_prompt email;
     temperature := 0 |}.

(** The documents of the search index that carry a given [(account, uid)]. *)
Definition is_record_for (account uid : string) (doc : gmap string value)
    : bool :=
  bool_decide (doc !! "account" = Some (VStr account))
  && bool_decide (doc !! "uid" = Some (VStr uid)).

Definition records_for (account uid : string) (w : World)
    : list (gmap string value) :=
  List.filter (is_record_for account uid) (es_emails w).

(** The closed enumeration of the specification's data model.  The source
    has no such type: [category] is an [Optional[str]]. *)
Definition CategoryLabel : list string :=
  ["Interested"; "MeetingBooked"; "NotInterested"; "Spam"; "OutOfOffice";
   "Uncategorized"].

(** [int(s)] for a non-empty string of decimal digits. *)
Definition int (s : string) : option nat :=
  match s with
  | "" => None
  | _ => Nat.of_uint <$> NilEmpty.uint_of_string s
  end.

(** A run of [add_knowledge] calls; a call that raises leaves the caller free
    to go on with the next one. *)
Definition add_knowledge_all (env : Env) (texts : list string) (w : World)
    : World :=
  foldl (fun w text => snd (add_knowledge env text w)) w texts.

(** A search hit satisfies a query when the text term, if given, matches
    its body and every supplied filter equals the corresponding field. *)
Definition doc_satisfies (env : Env) (query : SearchQuery.t)
    (doc : gmap string value) : Prop :=
  (SearchQuery.text query <> "" ->
     exists b, doc !! "body" = Some (VStr b)
               /\ es_match env (SearchQuery.text query) b = true)
  /\ (forall a, SearchQuery.account query = Some a -> a <> "" ->
        doc !! "account" = Some (VStr a))
  /\ (forall f, SearchQuery.folder query = Some f -> f <> "" ->
        doc !! "folder" = Some (VStr f))
  /\ (forall c, SearchQuery.category query = Some c -> c <> "" ->
        doc !! "category" = Some (VStr c)).

Definition email_satisfies (env : Env) (query : SearchQuery.t)
    (email : Email.t) : Prop :=
  (SearchQuery.text query <> "" ->
     es_match env (SearchQuery.text query) (Email.body email) = true)
  /\ (forall a, SearchQuery.account query = Some a -> a <> "" ->
        Email.account email = a)
  /\ (forall f, SearchQuery.folder query = Some f -> f <> "" ->
        Email.folder email = f)
  /\ (forall c, SearchQuery.category query = Some c -> c <> "" ->
        Email.category email = Some c).

(** ** Concrete collaborators and records for the examples *)

(** Substring test, standing in for the analysed full-text match. *)
Definition contains (t s : string) : bool :=
  bool_decide (is_Some (String.index 0 t s)).

(** Collaborators for the examples: the chat answer, the outcome of an
    index write and the outcome of a Slack post are chosen, everything else
    succeeds. *)
Definition example_env (chat : Result ChatResponse)
    (index_error : World -> option exn) (slack_failure : option exn) : Env :=
  {| openai_create := fun _ _ => chat;
     es_index_error := fun w _ => index_error w;
     es_match := contains;
     es_rank := fun _ docs => docs;
     es_search_error := fun _ => None;
     chroma_add_error := fun _ _ _ => None;
     chroma_query_error := fun _ => None;
     chroma_default_ef := fun _ => [];
     chroma_distance := fun _ _ => 0%Q;
     embedder_encode := fun _ => [];
     slack_error := fun _ _ => slack_failure;
     requests_error := fun _ _ => None;
     webhook_url := Some "http://localhost:9000/hook";
     parse_datetime := fun _ => None |}.

(** Collaborators that never fail; the chat model answers [answer]. *)
Definition quiet_env (answer : option string) : Env :=
  example_env (Ok [answer]) (fun _ => None) None.

(** The chat call times out. *)
Definition timeout_env : Env :=
  example_env (Raise (OtherError "APITimeoutError" "Request timed out."))
    (fun _ => None) None.

(** The first index write fails, every later one would succeed. *)
Definition flaky_index_env : Env :=
  example_env (Ok [Some "Spam"])
    (fun w =>
       if bool_decide (es_index_calls w = 0)
       then Some (OtherError "ConnectionError" "Connection refused")
       else None)
    None.

(** Slack cannot be reached: the client raises an error that is not a
    [SlackApiError]. *)
Definition slack_down_env : Env :=
  example_env (Ok [Some "Interested"]) (fun _ => None)
    (Some (OtherError "URLError" "Connection refused")).

Definition demo_email : Email.t :=
  Email.mk "1" "Re: demo" "Looking forward to Tuesday" "lead@y.com"
    "a@x.com" 1700000000%Z "INBOX" "a@x.com" None.

Definition demo_email_edited : Email.t :=
  Email.mk "1" "Re: demo" "Looking forward to Wednesday" "lead@y.com"
    "a@x.com" 1700000000%Z "INBOX" "a@x.com" None.

(** The runs the examples look at. *)
Definition interested_once : World :=
  snd (process_new_email (quiet_env (Some "Interested")) demo_email
         empty_world).

Definition interested_twice : World :=
  snd (process_new_email (quiet_env (Some "Interested")) demo_email_edited
         interested_once).

Definition meeting_booked_run : Result Email.t * World :=
  process_new_email (quiet_env (Some "Meeting Booked")) demo_email empty_world.

Definition timeout_run : Result Email.t * World :=
  process_new_email timeout_env demo_email empty_world.

Definition flaky_index_run : Result Email.t * World :=
  process_new_email flaky_index_env demo_email empty_world.

Definition slack_down_run : Result Email.t * World :=
  process_new_email slack_down_env demo_email empty_world.

Definition empty_knowledge_run : Result (option string) * World :=
  suggest_reply (quiet_env (Some "Thanks!")) demo_email empty_world.

(** Records over two accounts and two categories. *)
Definition abxy_email (uid account category : string) : Email.t :=
  Email.mk uid "Hello" "Shall we meet?" "lead@y.com" account 1700000000%Z
    "INBOX" account (Some category).

Definition abxy_emails : list Email.t :=
  [ abxy_email "1" "X" "A"; abxy_email "2" "X" "B";
    abxy_email "3" "Y" "A"; abxy_email "4" "Y" "B" ].

(** An index holding them as a writer that keeps the sender under "from_"
    would have stored them. *)
Definition abxy_world : World :=
  set_es (email_dict <$> abxy_emails) 4 empty_world.

Definition abxy_query : SearchQuery.t :=
  SearchQuery.mk "" (Some "X") None (Some "A").

(** The identifiers of the knowledge base are "1", "2", ... in insertion
    order. *)
Definition knowledge_ids_wf (w : World) : Prop :=
  cid <$> knowledge_collection w
  = str <$> seq 1 (length (knowledge_collection w)).

(** ** Observations on the module as a whole *)

(** A computation is read-only when it returns the world it was given. *)
Definition read_only {A} (m : M A) : Prop := forall w, snd (m w) = w.

(** The record [process_new_email] offers to the vector store of emails
    (lines 310-314). *)
Definition email_record (env : Env) (email : Email.t) : ChromaRecord :=
  {| cid := Email.uid email; document := Email.body email;
     embedding := chroma_default_ef env (Email.body email);
     metadata := Some (email_metadata email) |}.

(** Both sinks fail, Slack with an API error. *)
Definition sinks_failing_env : Env :=
  {| openai_create := fun _ _ => Ok [Some "Interested"];
     es_index_error := fun _ _ => None;
     es_match := contains;
     es_rank := fun _ docs => docs;
     es_search_error := fun _ => None;
     chroma_add_error := fun _ _ _ => None;
     chroma_query_error := fun _ => None;
     chroma_default_ef := fun _ => [];
     chroma_distance := fun _ _ => 0%Q;
     embedder_encode := fun _ => [];
     slack_error := fun _ _ => Some (SlackApiError "channel_not_found");
     requests_error := fun _ _ => Some (OtherError "Timeout" "timed out");
     webhook_url := None;
     parse_datetime := fun _ => None |}.

(** The request [suggest_reply] sends for a retrieved context. *)
Definition reply_request (email : Email.t) (context : string) : ChatRequest :=
  {| model := "gpt-4"; content := reply_prompt email context;
     temperature := 7 # 10 |}.

(** What a chat call answers to its caller: the content of the first
    choice (line 185 and line 268). *)
Definition first_choice (r : Result ChatResponse) : Result (option string) :=
  match r with
  | Ok (c :: _) => Ok c
  | Ok [] => Raise IndexError
  | Raise e => Raise e
  end.

(** The record [add_knowledge] offers to the knowledge base when the base
    holds [n] snippets. *)
Definition knowledge_record (env : Env) (n : nat) (text : string)
    : ChromaRecord :=
  {| cid := str (n + 1); document := text;
     embedding := embedder_encode env text; metadata := None |}.

(** The text stored at start-up (lines 278-281). *)
Definition seed_knowledge : string :=
  "Our product helps with cold outreach automation. For interested leads, share the booking link: https://cal.com/example".

(** Module initialisation as far as it reaches the stores: the one
    [add_knowledge] call of lines 278-281. *)
Definition startup (env : Env) : M unit := add_knowledge env seed_knowledge.

(** The calls the running module serves: the IMAP callback (line 287) and
    the two endpoints that reach the services (lines 290-298). *)
Inductive api_call :=
  | ProcessNewEmail (email : Email.t)
  | SearchEmails (query : SearchQuery.t)
  | SuggestReply (email : Email.t).

Definition run_call (env : Env) (c : api_call) (w : World) : World :=
  match c with
  | ProcessNewEmail email => snd (process_new_email env email w)
  | SearchEmails query => snd (search env query w)
  | SuggestReply email => snd (suggest_reply env email w)
  end.

Definition run_calls (env : Env) (calls : list api_call) (w : World) : World :=
  foldl (fun w c => run_call env c w) w calls.

(** A string of [n] characters. *)
Definition filler (n : nat) : string := Nat.iter n (String.append "x") "".

Definition long_email (tail : string) : Email.t :=
  Email.mk "7" "Long" (filler 1000 +:+ tail) "lead@y.com" "a@x.com"
    1700000000%Z "INBOX" "a@x.com" None.

(** Documents of the shape [index_email] writes. *)
Definition written_by_index_email (doc : gmap string value) : Prop :=
  exists email, doc = indexed_document email.

(** The webhook requests [trigger_webhook] builds for an interested
    email. *)
Definition interested_request (env : Env) (r : WebhookRequest) : Prop :=
  url r = webhook_url env /\ event r = "email_interested" /\ timeout r = 5%Z
  /\ data r !! "category" = Some (VStr "Interested").

(** The categoriser answers "Interested" and every index write fails. *)
Definition index_down_env : Env :=
  example_env (Ok [Some "Interested"])
    (fun _ => Some (OtherError "ConnectionError" "Connection refused")) None.

Definition index_down_run : Result Email.t * World :=
  process_new_email index_down_env demo_email empty_world.

(** The same uid is processed twice, first answered "Spam", then
    "Interested". *)
Definition spam_then_interested : World :=
  snd (process_new_email (quiet_env (Some "Interested")) demo_email
         (snd (process_new_email (quiet_env (Some "Spam")) demo_email
                 empty_world))).

(** * Properties *)

(** ** Basic facts about the monad and the services *)

Lemma bind_ok {A B} (m : M A) (f : A -> M B) w a w1 :
  m w = (Ok a, w1) -> (m ≫= f) w = f a w1.
Proof. intros H. unfold mbind, M_bind. by rewrite H. Qed.

Lemma bind_raise {A B} (m : M A) (f : A -> M B) w e w1 :
  m w = (Raise e, w1) -> (m ≫= f) w = (Raise e, w1).
Proof. intros H. unfold mbind, M_bind. by rewrite H. Qed.

Lemma email_dict_from_ email :
  email_dict email !! "from_" = Some (VStr (Email.from_ email)).
Proof. reflexivity. Qed.

Lemma email_dict_from email : email_dict email !! "from" = None.
Proof. reflexivity. Qed.

Lemma index_email_eq env email w :
  index_email env email w = es_index env (indexed_document email) w.
Proof.
  unfold index_email, dict_pop. rewrite email_dict_from_. reflexivity.
Qed.

Lemma indexed_document_from email :
  indexed_document email !! "from" = Some (VStr (Email.from_ email)).
Proof. unfold indexed_document. apply lookup_insert_eq. Qed.

Lemma indexed_document_from_ email : indexed_document email !! "from_" = None.
Proof.
  unfold indexed_document. rewrite lookup_insert_ne by done.
  apply lookup_delete_eq.
Qed.

Lemma indexed_document_other email k :
  k <> "from" -> k <> "from_" ->
  indexed_document email !! k = email_dict email !! k.
Proof.
  intros H1 H2. unfold indexed_document.
  rewrite lookup_insert_ne by done. by rewrite lookup_delete_ne.
Qed.

Lemma indexed_document_account email :
  indexed_document email !! "account" = Some (VStr (Email.account email)).
Proof. by rewrite indexed_document_other. Qed.

Lemma indexed_document_uid email :
  indexed_document email !! "uid" = Some (VStr (Email.uid email)).
Proof. by rewrite indexed_document_other. Qed.

Lemma indexed_document_body email :
  indexed_document email !! "body" = Some (VStr (Email.body email)).
Proof. by rewrite indexed_document_other. Qed.

Lemma indexed_document_category email :
  indexed_document email !! "category"
  = Some (opt_value (Email.category email)).
Proof. by rewrite indexed_document_other. Qed.

(** [categorize] sends one request and answers with the content of the
    first choice. *)
Lemma categorize_eq env email w :
  categorize env email w
  = (match openai_create env w (categorize_request email) with
     | Ok (c :: _) => Ok c
     | Ok [] => Raise IndexError
     | Raise e => Raise e
     end, log_openai (categorize_request email) w).
Proof.
  unfold categorize, chat_completions_create, mbind, M_bind, list_index.
  fold (categorize_request email).
  destruct (openai_create _ _ _) as [[|c r]|e]; reflexivity.
Qed.

(** The Slack sink: the call is always issued; only a [SlackApiError] is
    caught. *)
Lemma send_slack_notification_eq env email w :
  send_slack_notification env email w
  = match slack_error env w (slack_message email) with
    | None => (Ok tt, log_slack (slack_message email) w)
    | Some e =>
        if is_SlackApiError e
        then print ("Slack error: " +:+ exn_str e)
               (log_slack (slack_message email) w)
        else (Raise e, log_slack (slack_message email) w)
    end.
Proof.
  unfold send_slack_notification, try_except, chat_postMessage.
  destruct (slack_error _ _ _); reflexivity.
Qed.

(** The webhook sink: the call is always issued and every exception is
    caught. *)
Lemma trigger_webhook_eq env email w :
  trigger_webhook env email w
  = match requests_error env w (webhook_request env email) with
    | None => (Ok tt, log_webhook (webhook_request env email) w)
    | Some e =>
        print ("Webhook error: " +:+ exn_str e)
          (log_webhook (webhook_request env email) w)
    end.
Proof.
  unfold trigger_webhook, try_except, requests_post.
  destruct (requests_error _ _ _); reflexivity.
Qed.

Lemma trigger_webhook_ok env email w :
  fst (trigger_webhook env email w) = Ok tt.
Proof.
  rewrite trigger_webhook_eq. destruct (requests_error _ _ _); reflexivity.
Qed.

(** ** The pipeline, stage by stage *)

Lemma process_new_email_eq env email w :
  process_new_email env email w
  = match categorize env email w with
    | (Raise e, w1) => (Raise e, w1)
    | (Ok c, w1) =>
        let email' := Email.set_category c email in
        match es_index env (indexed_document email') w1 with
        | (Raise e, w2) => (Raise e, w2)
        | (Ok _, w2) =>
            match chroma_add env EmailCollection (Email.uid email')
                    (Email.body email') None (Some (email_metadata email')) w2
            with
            | (Raise e, w3) => (Raise e, w3)
            | (Ok _, w3) =>
                if bool_decide (c = Some "Interested") then
                  match send_slack_notification env email' w3 with
                  | (Raise e, w4) => (Raise e, w4)
                  | (Ok _, w4) =>
                      (Ok email', snd (trigger_webhook env email' w4))
                  end
                else (Ok email', w3)
            end
        end
    end.
Proof.
  unfold process_new_email, mbind, M_bind.
  destruct (categorize env email w) as [[c|e] w1]; [|reflexivity].
  rewrite index_email_eq.
  destruct (es_index _ _ _) as [[[]|e] w2]; [|reflexivity].
  fold (email_metadata (Email.set_category c email)).
  destruct (chroma_add _ _ _ _ _ _ _) as [[[]|e] w3]; [|reflexivity].
  change (Email.category (Email.set_category c email)) with c.
  case_bool_decide; [|reflexivity].
  destruct (send_slack_notification _ _ _) as [[[]|e] w4]; [|reflexivity].
  pose proof (trigger_webhook_ok env (Email.set_category c email) w4) as Hw.
  destruct (trigger_webhook _ _ _) as [r w5]. simpl in Hw. by subst r.
Qed.

(** What each stage leaves untouched. *)
Lemma es_index_world env doc w :
  snd (es_index env doc w)
  = set_es (match es_index_error env w doc with
            | Some _ => es_emails w
            | None => es_emails w ++ [doc]
            end) (S (es_index_calls w)) w.
Proof. unfold es_index. destruct (es_index_error _ _ _); reflexivity. Qed.

Lemma chroma_add_frame env c id doc emb meta w :
  let w' := snd (chroma_add env c id doc emb meta w) in
  es_emails w' = es_emails w /\ es_index_calls w' = es_index_calls w
  /\ slack_posts w' = slack_posts w /\ webhook_posts w' = webhook_posts w
  /\ openai_requests w' = openai_requests w.
Proof.
  unfold chroma_add. destruct (chroma_add_error _ _ _ _); [done|].
  case_bool_decide; done.
Qed.

Lemma send_slack_notification_frame env email w :
  let w' := snd (send_slack_notification env email w) in
  es_emails w' = es_emails w /\ es_index_calls w' = es_index_calls w
  /\ email_collection w' = email_collection w
  /\ knowledge_collection w' = knowledge_collection w
  /\ slack_posts w' = slack_posts w ++ [slack_message email]
  /\ webhook_posts w' = webhook_posts w.
Proof.
  rewrite send_slack_notification_eq.
  destruct (slack_error _ _ _) as [e|]; [destruct (is_SlackApiError e)|]; done.
Qed.

Lemma trigger_webhook_frame env email w :
  let w' := snd (trigger_webhook env email w) in
  es_emails w' = es_emails w /\ es_index_calls w' = es_index_calls w
  /\ email_collection w' = email_collection w
  /\ knowledge_collection w' = knowledge_collection w
  /\ slack_posts w' = slack_posts w
  /\ webhook_posts w' = webhook_posts w ++ [webhook_request env email].
Proof.
  rewrite trigger_webhook_eq. destruct (requests_error _ _ _); done.
Qed.

(** Once categorisation has answered, the index receives exactly one write
    request, and what the later stages do cannot change the index. *)
Lemma process_new_email_index env email w c w1 :
  categorize env email w = (Ok c, w1) ->
  let doc := indexed_document (Email.set_category c email) in
  let w' := snd (process_new_email env email w) in
  es_index_calls w' = S (es_index_calls w)
  /\ es_emails w' = match es_index_error env w1 doc with
                    | Some _ => es_emails w
                    | None => es_emails w ++ [doc]
                    end.
Proof.
  intros Hc doc w'. subst w'. rewrite process_new_email_eq, Hc.
  pose proof (categorize_eq env email w) as Hw. rewrite Hc in Hw.
  injection Hw as _ ->. cbn zeta. fold doc.
  pose proof (es_index_world env doc (log_openai (categorize_request email) w))
    as Hi.
  destruct (es_index _ _ _) as [[[]|e] w2]; simpl in Hi; subst w2.
  2: { simpl. split; [done|]. by destruct (es_index_error _ _ _). }
  match goal with |- context [chroma_add ?e ?c ?i ?d ?m ?t ?w] =>
    pose proof (chroma_add_frame e c i d m t w) as Hf;
    destruct (chroma_add e c i d m t w) as [[[]|e3] w3] end;
  simpl in Hf; destruct Hf as (He & Hn & _).
  2: { simpl. rewrite He, Hn. simpl. split; [done|].
       by destruct (es_index_error _ _ _). }
  assert (es_index_calls w3 = S (es_index_calls w)
          /\ es_emails w3 = match es_index_error env
                                    (log_openai (categorize_request email) w) doc with
                            | Some _ => es_emails w
                            | None => es_emails w ++ [doc]
                            end) as [H1 H2].
  { rewrite He, Hn. simpl. by destruct (es_index_error _ _ _). }
  case_bool_decide; [|done].
  match goal with |- context [send_slack_notification ?e ?m ?w] =>
    pose proof (send_slack_notification_frame e m w) as Hs;
    destruct (send_slack_notification e m w) as [[[]|e4] w4] end;
  simpl in Hs; destruct Hs as (Hs1 & Hs2 & _).
  2: { simpl. by rewrite Hs1, Hs2. }
  match goal with |- context [trigger_webhook ?e ?m ?w] =>
    pose proof (trigger_webhook_frame e m w) as Ht end.
  simpl in Ht. destruct Ht as (Ht1 & Ht2 & _). simpl.
  by rewrite Ht1, Ht2, Hs1, Hs2.
Qed.

Lemma process_new_email_result env email w e' w' :
  process_new_email env email w = (Ok e', w') ->
  exists c w1, categorize env email w = (Ok c, w1)
               /\ e' = Email.set_category c email.
Proof.
  rewrite process_new_email_eq.
  destruct (categorize env email w) as [[c|e] w1]; [|done].
  intros H. exists c, w1. split; [done|]. cbn zeta in H.
  destruct (es_index _ _ _) as [[[]|?] ?]; [|done].
  destruct (chroma_add _ _ _ _ _ _ _) as [[[]|?] ?]; [|done].
  case_bool_decide; [|congruence].
  destruct (send_slack_notification _ _ _) as [[[]|?] ?]; [|done].
  congruence.
Qed.

Lemma is_record_for_indexed email :
  is_record_for (Email.account email) (Email.uid email)
    (indexed_document email) = true.
Proof.
  unfold is_record_for.
  rewrite indexed_document_account, indexed_document_uid.
  by rewrite !bool_decide_eq_true_2.
Qed.

Lemma records_for_snoc account uid docs email c :
  Email.account email = account -> Email.uid email = uid ->
  List.filter (is_record_for account uid)
    (docs ++ [indexed_document (Email.set_category c email)])
  = List.filter (is_record_for account uid) docs
    ++ [indexed_document (Email.set_category c email)].
Proof.
  intros <- <-. rewrite List.filter_app. f_equal. simpl.
  change (Email.account email)
    with (Email.account (Email.set_category c email)).
  change (Email.uid email) with (Email.uid (Email.set_category c email)).
  by rewrite is_record_for_indexed.
Qed.

(** ** The claims about the ingestion pipeline *)

(** C1, as the code has it.  The index write is an append: when the same
    [(account, uid)] is processed twice and both index writes succeed, the
    index gains two documents for that pair, the later of which carries the
    fields of the most recent processing. *)
Theorem reprocessing_appends env e1 e2 w c1 c2 wa wb :
  Email.account e1 = Email.account e2 ->
  Email.uid e1 = Email.uid e2 ->
  let doc1 := indexed_document (Email.set_category c1 e1) in
  let doc2 := indexed_document (Email.set_category c2 e2) in
  categorize env e1 w = (Ok c1, wa) ->
  es_index_error env wa doc1 = None ->
  let w1 := snd (process_new_email env e1 w) in
  categorize env e2 w1 = (Ok c2, wb) ->
  es_index_error env wb doc2 = None ->
  let w2 := snd (process_new_email env e2 w1) in
  es_emails w2 = es_emails w ++ [doc1; doc2]
  /\ records_for (Email.account e2) (Email.uid e2) w2
     = records_for (Email.account e2) (Email.uid e2) w ++ [doc1; doc2]
  /\ length (records_for (Email.account e2) (Email.uid e2) w2)
     = length (records_for (Email.account e2) (Email.uid e2) w) + 2.
Proof.
  intros Ha Hu doc1 doc2 Hc1 Hi1 w1 Hc2 Hi2 w2.
  destruct (process_new_email_index env e1 w c1 wa Hc1) as [_ H1].
  destruct (process_new_email_index env e2 w1 c2 wb Hc2) as [_ H2].
  fold doc1 in H1. fold doc2 in H2. fold w1 in H1. fold w2 in H2.
  rewrite Hi1 in H1. rewrite Hi2 in H2.
  assert (es_emails w2 = es_emails w ++ [doc1; doc2]) as He.
  { rewrite H2, H1. by rewrite <- app_assoc. }
  assert (records_for (Email.account e2) (Email.uid e2) w2
          = records_for (Email.account e2) (Email.uid e2) w ++ [doc1; doc2])
    as Hr.
  { unfold records_for. rewrite H2, H1.
    unfold doc2. rewrite records_for_snoc by done.
    unfold doc1. rewrite records_for_snoc by done.
    by rewrite <- app_assoc. }
  split; [done|]. split; [done|].
  rewrite Hr, length_app. reflexivity.
Qed.

(** The notification calls of one invocation, whatever its outcome. *)
Lemma process_new_email_posts env email w :
  let r := process_new_email env email w in
  match fst r with
  | Ok e' =>
      if bool_decide (Email.category e' = Some "Interested")
      then slack_posts (snd r) = slack_posts w ++ [slack_message e']
           /\ webhook_posts (snd r)
              = webhook_posts w ++ [webhook_request env e']
      else slack_posts (snd r) = slack_posts w
           /\ webhook_posts (snd r) = webhook_posts w
  | Raise _ =>
      webhook_posts (snd r) = webhook_posts w
      /\ (slack_posts (snd r) = slack_posts w
          \/ exists w1,
               categorize env email w = (Ok (Some "Interested"), w1)
               /\ slack_posts (snd r)
                  = slack_posts w
                    ++ [slack_message
                          (Email.set_category (Some "Interested") email)])
  end.
Proof.
  cbn zeta. rewrite process_new_email_eq.
  pose proof (categorize_eq env email w) as Hc.
  destruct (categorize env email w) as [[c|e] w1];
    injection Hc as _ ->; [|simpl; auto].
  cbn zeta.
  set (email' := Email.set_category c email).
  set (w1 := log_openai (categorize_request email) w).
  pose proof (es_index_world env (indexed_document email') w1) as Hi.
  destruct (es_index _ _ _) as [[[]|e] w2]; simpl in Hi; subst w2;
    [|simpl; auto].
  match goal with |- context [chroma_add ?e ?c ?i ?d ?m ?t ?w] =>
    pose proof (chroma_add_frame e c i d m t w) as Hf;
    destruct (chroma_add e c i d m t w) as [[[]|e3] w3] end;
  simpl in Hf; destruct Hf as (_ & _ & Hs & Hw & _); [|simpl; auto].
  case_bool_decide as Hint.
  - pose proof (send_slack_notification_frame env email' w3) as Hf.
    destruct (send_slack_notification _ _ _) as [[[]|e4] w4];
      simpl in Hf; destruct Hf as (_ & _ & _ & _ & Hs4 & Hw4).
    + pose proof (trigger_webhook_frame env email' w4) as Hf.
      simpl in Hf. destruct Hf as (_ & _ & _ & _ & Hs5 & Hw5).
      simpl. rewrite bool_decide_eq_true_2 by done.
      by rewrite Hs5, Hw5, Hs4, Hw4, Hs, Hw.
    + simpl. rewrite Hw4, Hw. split; [done|]. right.
      exists w1. subst c. by rewrite Hs4, Hs.
  - simpl. rewrite bool_decide_eq_false_2 by done. auto.
Qed.

(** The vector store of emails is written only after a successful index
    write. *)
Lemma process_new_email_raise_before_store env email w :
  let r := process_new_email env email w in
  (exists e w1, categorize env email w = (Raise e, w1))
  \/ (exists c w1 e, categorize env email w = (Ok c, w1)
        /\ es_index_error env w1
             (indexed_document (Email.set_category c email)) = Some e) ->
  email_collection (snd r) = email_collection w.
Proof.
  cbn zeta. rewrite process_new_email_eq.
  pose proof (categorize_eq env email w) as Hc.
  intros [(e & w1 & H)|(c & w1 & e & H & Hi)]; rewrite H in *;
    injection Hc as _ ->; [done|].
  cbn zeta. unfold es_index. by rewrite Hi.
Qed.

(** C1 at a concrete input: the demo email, then the same [(account, uid)]
    with an edited body.  The index holds two records for the pair, the
    first still with the old body. *)
Lemma upsert_counterexample :
  length (records_for "a@x.com" "1" interested_twice) = 2
  /\ length (records_for "a@x.com" "1" interested_twice) <> 1
  /\ (fun doc => doc !! "body") <$> records_for "a@x.com" "1" interested_twice
     = [Some (VStr "Looking forward to Tuesday");
        Some (VStr "Looking forward to Wednesday")].
Proof. vm_compute. repeat split. discriminate. Qed.

Lemma reprocessing_appends_witness :
  Email.account demo_email = Email.account demo_email_edited
  /\ Email.uid demo_email = Email.uid demo_email_edited
  /\ length (records_for "a@x.com" "1" interested_twice)
     = length (records_for "a@x.com" "1" empty_world) + 2.
Proof.
  split; [reflexivity|]. split; [reflexivity|].
  refine (proj2 (proj2
    (reprocessing_appends (quiet_env (Some "Interested")) demo_email
       demo_email_edited empty_world (Some "Interested") (Some "Interested")
       _ _ eq_refl eq_refl _ _ _ _))); reflexivity.
Defined.

(** The vector store of emails after an invocation whose categorisation and
    index write succeeded: what the one [add] of lines 310-314 made of it. *)
Lemma process_new_email_add env email w c w1 :
  categorize env email w = (Ok c, w1) ->
  let email' := Email.set_category c email in
  es_index_error env w1 (indexed_document email') = None ->
  email_collection (snd (process_new_email env email w))
  = email_collection
      (snd (chroma_add env EmailCollection (Email.uid email')
              (Email.body email') None (Some (email_metadata email'))
              (snd (index_email env email' w1)))).
Proof.
  intros Hc email' Hi. rewrite process_new_email_eq, Hc. cbn zeta.
  fold email'. rewrite index_email_eq. unfold es_index. rewrite Hi.
  cbn [snd].
  destruct (chroma_add _ _ _ _ _ _ _) as [[[]|e3] w3]; [|done].
  case_bool_decide; [|done].
  pose proof (send_slack_notification_frame env email' w3) as Hs.
  destruct (send_slack_notification _ _ _) as [[[]|e4] w4];
    simpl in Hs; destruct Hs as (_ & _ & Hs & _); [|done].
  pose proof (trigger_webhook_frame env email' w4) as Ht.
  simpl in Ht. destruct Ht as (_ & _ & Ht & _). simpl. congruence.
Qed.

(** C2, as the code has it.  The label is not coerced: whatever string the
    categorizer model returns is assigned to the record and written to the
    index document unchanged.  The vector store takes it as the metadata of
    a new record when the uid is new to it and the store accepts the write;
    when the uid is already stored, the store keeps the record it has. *)
Theorem category_stored_verbatim env email w s rest :
  openai_create env w (categorize_request email) = Ok (Some s :: rest) ->
  let email' := Email.set_category (Some s) email in
  let w1 := log_openai (categorize_request email) w in
  es_index_error env w1 (indexed_document email') = None ->
  let r := process_new_email env email w in
  es_emails (snd r) = es_emails w ++ [indexed_document email']
  /\ indexed_document email' !! "category" = Some (VStr s)
  /\ (forall e', fst r = Ok e' -> Email.category e' = Some s)
  /\ (Email.uid email ∈ (cid <$> email_collection w) ->
      email_collection (snd r) = email_collection w)
  /\ (Email.uid email ∉ (cid <$> email_collection w) ->
      chroma_add_error env (snd (index_email env email' w1)) EmailCollection
        (Email.uid email) = None ->
      email_collection (snd r)
      = email_collection w ++ [email_record env email'])
  /\ metadata (email_record env email') = Some {[ "category" := VStr s ]}.
Proof.
  intros Ho email' w1 Hi r.
  assert (categorize env email w = (Ok (Some s), w1)) as Hc.
  { rewrite categorize_eq. by rewrite Ho. }
  destruct (process_new_email_index env email w _ _ Hc) as [_ He].
  fold email' in He. rewrite Hi in He.
  pose proof (process_new_email_add env email w _ _ Hc Hi) as Hv.
  fold email' r in Hv.
  assert (email_collection (snd (index_email env email' w1))
          = email_collection w) as Hw2.
  { rewrite index_email_eq. unfold es_index. by rewrite Hi. }
  split; [done|]. split; [by rewrite indexed_document_category|].
  split; [|split; [|split; [|done]]].
  - intros e' Hr. subst r.
    destruct (process_new_email env email w) as [r w'] eqn:Hp.
    simpl in Hr. subst r.
    destruct (process_new_email_result _ _ _ _ _ Hp) as (c & w1' & Hc' & ->).
    rewrite Hc in Hc'. by injection Hc' as <- _.
  - intros Hin. rewrite Hv. unfold chroma_add.
    destruct (chroma_add_error _ _ _ _); [done|]. cbn [collection_get].
    rewrite Hw2. by rewrite (bool_decide_eq_true_2 _ Hin).
  - intros Hnin Hadd. rewrite Hv. unfold chroma_add.
    change (Email.uid email') with (Email.uid email). rewrite Hadd.
    cbn [collection_get]. rewrite Hw2.
    by rewrite (bool_decide_eq_false_2 _ Hnin).
Qed.

Lemma category_stored_verbatim_witness :
  es_emails (snd (process_new_email (quiet_env (Some "Out of Office"))
                    demo_email empty_world))
  = [indexed_document (Email.set_category (Some "Out of Office") demo_email)]
  /\ indexed_document (Email.set_category (Some "Out of Office") demo_email)
       !! "category" = Some (VStr "Out of Office")
  /\ email_collection (snd (process_new_email (quiet_env (Some "Out of Office"))
                              demo_email empty_world))
     = [email_record (quiet_env (Some "Out of Office"))
          (Email.set_category (Some "Out of Office") demo_email)].
Proof.
  destruct (category_stored_verbatim (quiet_env (Some "Out of Office"))
              demo_email empty_world "Out of Office" [] eq_refl eq_refl)
    as (H1 & H2 & _ & _ & H5 & _).
  split; [exact H1|]. split; [exact H2|].
  apply H5; [|reflexivity]. intros H. inversion H.
Defined.

(** With the uid already in the vector store the metadata there is not
    renewed: after "Spam" and then "Interested" for the same uid the index
    holds both labels and the vector store still says "Spam". *)
Example vector_metadata_stale :
  (fun doc => doc !! "category") <$> es_emails spam_then_interested
  = [Some (VStr "Spam"); Some (VStr "Interested")]
  /\ metadata <$> email_collection spam_then_interested
     = [Some {[ "category" := VStr "Spam" ]}].
Proof. split; reflexivity. Qed.

(** C2 at a concrete input: the model answers with a label of its own
    prompt, "Meeting Booked".  That string is stored as the category; it is
    not a member of the closed enumeration and it is not "Uncategorized". *)
Lemma coercion_counterexample :
  fst meeting_booked_run
  = Ok (Email.set_category (Some "Meeting Booked") demo_email)
  /\ (fun doc => doc !! "category") <$> es_emails (snd meeting_booked_run)
     = [Some (VStr "Meeting Booked")]
  /\ ~ In "Meeting Booked" CategoryLabel.
Proof.
  split; [reflexivity|]. split; [reflexivity|].
  unfold CategoryLabel. simpl. intuition discriminate.
Qed.

(** C3, as the code has it.  A failing categorisation call is not caught:
    the exception leaves [process_new_email], the record is written neither
    to the index nor to the vector store, and no notification is sent. *)
Theorem categorize_failure_propagates env email w e w1 :
  categorize env email w = (Raise e, w1) ->
  process_new_email env email w = (Raise e, w1)
  /\ es_emails w1 = es_emails w
  /\ es_index_calls w1 = es_index_calls w
  /\ email_collection w1 = email_collection w
  /\ slack_posts w1 = slack_posts w
  /\ webhook_posts w1 = webhook_posts w.
Proof.
  intros Hc. split.
  - unfold process_new_email. by rewrite (bind_raise _ _ _ _ _ Hc).
  - rewrite categorize_eq in Hc. by injection Hc as _ <-.
Qed.

Lemma categorize_failure_propagates_witness :
  process_new_email timeout_env demo_email empty_world
  = (Raise (OtherError "APITimeoutError" "Request timed out."),
     log_openai (categorize_request demo_email) empty_world)
  /\ es_emails (log_openai (categorize_request demo_email) empty_world) = [].
Proof.
  destruct (categorize_failure_propagates timeout_env demo_email empty_world
              (OtherError "APITimeoutError" "Request timed out.")
              (log_openai (categorize_request demo_email) empty_world)
              eq_refl) as (H1 & H2 & _).
  exact (conj H1 H2).
Defined.

(** C3 at a concrete input: the categorizer call times out.  The call
    raises and nothing is indexed. *)
Lemma uncategorized_counterexample :
  fst timeout_run = Raise (OtherError "APITimeoutError" "Request timed out.")
  /\ es_emails (snd timeout_run) = []
  /\ email_collection (snd timeout_run) = [].
Proof. repeat split. Qed.

(** C4, as the code has it.  The two notification calls are made only for
    an email the categoriser labelled "Interested": with any other label,
    or with no label because categorisation failed, none is made.  For an
    "Interested" email the Slack notification is called, once and with the
    email, when the index write and the vector-store write before it have
    succeeded; when one of them fails the call raises and nothing is
    notified.  Whenever [process_new_email] returns, Slack and the webhook
    have each been called once if the category is "Interested" and not at
    all otherwise. *)
Theorem notification_gating env email w :
  let r := process_new_email env email w in
  let email' := Email.set_category (Some "Interested") email in
  ((forall w1, categorize env email w <> (Ok (Some "Interested"), w1)) ->
   slack_posts (snd r) = slack_posts w
   /\ webhook_posts (snd r) = webhook_posts w)
  /\ (forall w1 e,
        categorize env email w = (Ok (Some "Interested"), w1) ->
        (es_index_error env w1 (indexed_document email') = Some e
         \/ (es_index_error env w1 (indexed_document email') = None
             /\ chroma_add_error env (snd (index_email env email' w1))
                  EmailCollection (Email.uid email) = Some e)) ->
        fst r = Raise e
        /\ slack_posts (snd r) = slack_posts w
        /\ webhook_posts (snd r) = webhook_posts w)
  /\ (forall w1,
        categorize env email w = (Ok (Some "Interested"), w1) ->
        es_index_error env w1 (indexed_document email') = None ->
        chroma_add_error env (snd (index_email env email' w1))
          EmailCollection (Email.uid email) = None ->
        slack_posts (snd r) = slack_posts w ++ [slack_message email'])
  /\ (forall e',
        fst r = Ok e' ->
        ((slack_posts (snd r) = slack_posts w ++ [slack_message e']
          /\ webhook_posts (snd r)
             = webhook_posts w ++ [webhook_request env e'])
         <-> Email.category e' = Some "Interested")
        /\ (Email.category e' <> Some "Interested" ->
            slack_posts (snd r) = slack_posts w
            /\ webhook_posts (snd r) = webhook_posts w)).
Proof.
  intros r email'.
  pose proof (process_new_email_posts env email w) as Hposts.
  cbn zeta in Hposts. fold r in Hposts.
  split; [|split; [|split]].
  - intros Hnot. destruct (fst r) as [e'|e] eqn:Hr.
    + case_bool_decide as Hc; [|done]. exfalso.
      destruct (process_new_email env email w) as [r0 w'] eqn:Hp.
      subst r. simpl in Hr. subst r0.
      destruct (process_new_email_result _ _ _ _ _ Hp) as (c & w1 & Hc' & ->).
      simpl in Hc. subst c. by apply (Hnot w1).
    + destruct Hposts as [Hw [Hs|(w1 & Hc & _)]]; [done|].
      by destruct (Hnot w1).
  - intros w1 e Hc Hfail. subst r.
    rewrite process_new_email_eq, Hc. cbn zeta. fold email'.
    pose proof (categorize_eq env email w) as Hw1. rewrite Hc in Hw1.
    injection Hw1 as _ ->.
    rewrite index_email_eq in Hfail. unfold es_index in *.
    destruct Hfail as [Hi|[Hi Ha]]; rewrite Hi in *; [done|].
    cbn [snd] in Ha. unfold chroma_add.
    change (Email.uid email') with (Email.uid email). by rewrite Ha.
  - intros w1 Hc Hi Ha. subst r.
    rewrite process_new_email_eq, Hc. cbn zeta. fold email'.
    pose proof (categorize_eq env email w) as Hw1. rewrite Hc in Hw1.
    injection Hw1 as _ ->.
    rewrite index_email_eq in Ha. unfold es_index in *. rewrite Hi in *.
    cbn [snd] in Ha.
    match goal with |- context [chroma_add ?e ?c ?i ?d ?m ?t ?w2] =>
      pose proof (chroma_add_frame e c i d m t w2) as Hf;
      assert (fst (chroma_add e c i d m t w2) = Ok tt) as Hok
        by (unfold chroma_add;
            change (Email.uid email') with (Email.uid email);
            rewrite Ha; by case_bool_decide);
      destruct (chroma_add e c i d m t w2) as [[[]|e3] w3]
    end; simpl in Hok; [|done].
    simpl in Hf. destruct Hf as (_ & _ & Hs & _).
    rewrite bool_decide_eq_true_2 by done.
    pose proof (send_slack_notification_frame env email' w3) as Hsl.
    destruct (send_slack_notification _ _ _) as [[[]|e4] w4];
      simpl in Hsl; destruct Hsl as (_ & _ & _ & _ & Hs4 & _).
    + pose proof (trigger_webhook_frame env email' w4) as Ht.
      simpl in Ht. destruct Ht as (_ & _ & _ & _ & Hs5 & _).
      simpl. by rewrite Hs5, Hs4, Hs.
    + simpl. by rewrite Hs4, Hs.
  - intros e' Hr. rewrite Hr in Hposts.
    case_bool_decide as Hc.
    + split; [tauto|]. intros Hn. by destruct Hn.
    + destruct Hposts as [Hs Hw]. split; [|done]. split; [|done].
      intros [Hs' _]. rewrite Hs in Hs'.
      apply (f_equal length) in Hs'. rewrite length_app in Hs'.
      simpl in Hs'. lia.
Qed.

Lemma notification_gating_witness :
  slack_posts interested_once
  = [slack_message (Email.set_category (Some "Interested") demo_email)]
  /\ webhook_posts interested_once
     = [webhook_request (quiet_env (Some "Interested"))
          (Email.set_category (Some "Interested") demo_email)]
  /\ slack_posts (snd index_down_run) = []
  /\ webhook_posts (snd index_down_run) = [].
Proof.
  destruct (notification_gating (quiet_env (Some "Interested")) demo_email
              empty_world) as (_ & _ & _ & H4).
  destruct (notification_gating index_down_env demo_email empty_world)
    as (_ & H2 & _).
  destruct (H4 _ eq_refl) as [[_ H] _]. destruct (H eq_refl) as [Hs Hw].
  destruct (H2 _ (OtherError "ConnectionError" "Connection refused")
              eq_refl (or_introl eq_refl)) as (_ & Hs' & Hw').
  exact (conj Hs (conj Hw (conj Hs' Hw'))).
Defined.

(** C4 at a concrete input: the categoriser answers "Interested" and the
    index write fails.  The email is labelled "Interested", and neither
    Slack nor the webhook is called. *)
Lemma gating_counterexample :
  fst (categorize index_down_env demo_email empty_world)
  = Ok (Some "Interested")
  /\ fst index_down_run
     = Raise (OtherError "ConnectionError" "Connection refused")
  /\ slack_posts (snd index_down_run) = []
  /\ webhook_posts (snd index_down_run) = [].
Proof. repeat split. Qed.

(** C6 at the failing input.  Slack is unreachable and its client raises an
    error that is not a [SlackApiError]: the error leaves
    [send_slack_notification] and [process_new_email], and the webhook is
    never called. *)
Theorem slack_failure_escapes :
  fst slack_down_run = Raise (OtherError "URLError" "Connection refused")
  /\ length (slack_posts (snd slack_down_run)) = 1
  /\ webhook_posts (snd slack_down_run) = [].
Proof. repeat split. Qed.

(** What the two sinks do catch: a [SlackApiError] stays inside
    [send_slack_notification] (and nothing leaves [trigger_webhook], see
    [trigger_webhook_ok]). *)
Lemma slack_api_error_caught env email w msg :
  slack_error env w (slack_message email) = Some (SlackApiError msg) ->
  fst (send_slack_notification env email w) = Ok tt.
Proof. intros H. rewrite send_slack_notification_eq. by rewrite H. Qed.

(** Any other exception class leaves [send_slack_notification]. *)
Lemma slack_other_error_escapes env email w e :
  slack_error env w (slack_message email) = Some e ->
  is_SlackApiError e = false ->
  fst (send_slack_notification env email w) = Raise e.
Proof.
  intros H He. rewrite send_slack_notification_eq. by rewrite H, He.
Qed.

(** C7, as the code has it.  The index write is attempted once and never
    retried: when it fails, the exception leaves [process_new_email] after
    that single attempt, the record is in neither store and nothing is
    notified.  There is no outcome value: the function returns or raises. *)
Theorem index_failure_propagates env email w c w1 e :
  categorize env email w = (Ok c, w1) ->
  es_index_error env w1 (indexed_document (Email.set_category c email))
  = Some e ->
  let r := process_new_email env email w in
  fst r = Raise e
  /\ es_index_calls (snd r) = S (es_index_calls w)
  /\ es_emails (snd r) = es_emails w
  /\ email_collection (snd r) = email_collection w
  /\ slack_posts (snd r) = slack_posts w
  /\ webhook_posts (snd r) = webhook_posts w.
Proof.
  intros Hc Hi r.
  destruct (process_new_email_index env email w c w1 Hc) as [Hn He].
  rewrite Hi in He. fold r in Hn, He.
  assert (email_collection (snd r) = email_collection w) as Hv.
  { apply process_new_email_raise_before_store. right. eauto. }
  subst r. rewrite process_new_email_eq in *. rewrite Hc in *.
  pose proof (categorize_eq env email w) as Hw. rewrite Hc in Hw.
  injection Hw as _ ->. cbn zeta in *. unfold es_index in *.
  rewrite Hi in *. simpl in *. done.
Qed.

Lemma index_failure_propagates_witness :
  fst (process_new_email flaky_index_env demo_email empty_world)
  = Raise (OtherError "ConnectionError" "Connection refused")
  /\ es_index_calls (snd (process_new_email flaky_index_env demo_email
                            empty_world)) = 1
  /\ es_emails (snd (process_new_email flaky_index_env demo_email
                       empty_world)) = [].
Proof.
  destruct (index_failure_propagates flaky_index_env demo_email empty_world
              (Some "Spam") _
              (OtherError "ConnectionError" "Connection refused")
              eq_refl eq_refl) as (H1 & H2 & H3 & _).
  exact (conj H1 (conj H2 H3)).
Defined.

(** C7 at a concrete input: the first index write fails and a second one
    would succeed.  The write is attempted once, the exception leaves the
    function, and the record is in neither store. *)
Lemma retry_counterexample :
  fst flaky_index_run
  = Raise (OtherError "ConnectionError" "Connection refused")
  /\ es_index_calls (snd flaky_index_run) = 1
  /\ es_index_error flaky_index_env (snd flaky_index_run)
       (indexed_document (Email.set_category (Some "Spam") demo_email))
     = None
  /\ es_emails (snd flaky_index_run) = []
  /\ email_collection (snd flaky_index_run) = [].
Proof. repeat split. Qed.

(** ** The reply engine and the knowledge base *)

(** C5, as the code has it.  With an empty knowledge base [suggest_reply]
    raises before it builds a prompt: the line that takes the first document
    of the first result raises [IndexError] (or the store's own error is
    passed on), and no generation request is made. *)
Theorem suggest_reply_empty_raises env email w :
  knowledge_collection w = [] ->
  suggest_reply env email w
  = (Raise (default IndexError (chroma_query_error env w)), w).
Proof.
  intros Hk. unfold suggest_reply, chroma_query, mbind, M_bind.
  destruct (chroma_query_error env w); [reflexivity|].
  simpl. rewrite Hk. reflexivity.
Qed.

Lemma suggest_reply_empty_raises_witness :
  knowledge_collection empty_world = []
  /\ suggest_reply (quiet_env (Some "Thanks!")) demo_email empty_world
     = (Raise IndexError, empty_world).
Proof.
  split; [reflexivity|].
  exact (suggest_reply_empty_raises (quiet_env (Some "Thanks!")) demo_email
           empty_world eq_refl).
Defined.

(** C5 at a concrete input: the knowledge base is empty and no collaborator
    fails.  The call raises [IndexError]; it returns no reply and sends no
    generation request. *)
Lemma no_context_counterexample :
  fst empty_knowledge_run = Raise IndexError
  /\ ~ (exists reply, fst empty_knowledge_run = Ok reply)
  /\ openai_requests (snd empty_knowledge_run) = [].
Proof. repeat split. intros [reply H]. discriminate. Qed.

(** With a snippet in the store the same call does return the model's
    text. *)
Example suggest_reply_grounded :
  fst (suggest_reply (quiet_env (Some "Thanks!")) demo_email
         (add_knowledge_all (quiet_env (Some "Thanks!"))
            ["Share the booking link."] empty_world))
  = Ok (Some "Thanks!").
Proof. reflexivity. Qed.

Lemma int_str n : int (str n) = Some n.
Proof.
  unfold int, str.
  destruct (NilEmpty.string_of_uint (Nat.to_uint n)) eqn:Hs.
  - exfalso. apply (f_equal NilEmpty.uint_of_string) in Hs.
    rewrite NilEmpty.usu in Hs. simpl in Hs.
    injection Hs as Hs. apply (DecimalFacts.unorm_nonnil (Nat.to_uint n)).
    by rewrite <- Unsigned.to_of, Unsigned.of_to.
  - rewrite <- Hs, NilEmpty.usu. simpl. by rewrite Unsigned.of_to.
Qed.

Lemma str_inj n m : str n = str m -> n = m.
Proof.
  intros H. apply (f_equal int) in H. rewrite !int_str in H. congruence.
Qed.

Lemma add_knowledge_wf env text w :
  knowledge_ids_wf w -> knowledge_ids_wf (snd (add_knowledge env text w)).
Proof.
  unfold knowledge_ids_wf, add_knowledge, chroma_get_ids, chroma_add,
    mbind, M_bind.
  cbn [collection_get]. intros Hwf.
  destruct (chroma_add_error _ _ _ _); [done|].
  case_bool_decide; [done|]. cbn [snd set_collection knowledge_collection].
  rewrite fmap_app, length_app, Hwf. cbn [length fmap list_fmap].
  rewrite length_fmap, length_seq.
  rewrite Nat.add_1_r, seq_S, fmap_app. reflexivity.
Qed.

Lemma add_knowledge_all_wf env texts w :
  knowledge_ids_wf w -> knowledge_ids_wf (add_knowledge_all env texts w).
Proof.
  unfold add_knowledge_all. revert w.
  induction texts as [|t texts IH]; intros w Hwf; [done|].
  simpl. apply IH. by apply add_knowledge_wf.
Qed.

(** C9.  Starting from the empty knowledge base, after any run of
    [add_knowledge] calls the stored identifiers are the decimal numerals
    of 1, 2, ... in insertion order: no identifier occurs twice, and a later
    snippet has a larger number than an earlier one. *)
Theorem knowledge_ids_unique_increasing env texts w :
  knowledge_collection w = [] ->
  let ids := cid <$> knowledge_collection (add_knowledge_all env texts w) in
  ids = str <$> seq 1 (length ids)
  /\ NoDup ids
  /\ (forall i j a b, i < j -> ids !! i = Some a -> ids !! j = Some b ->
        exists m n, int a = Some m /\ int b = Some n /\ m < n).
Proof.
  intros Hk ids.
  assert (knowledge_ids_wf (add_knowledge_all env texts w)) as Hwf.
  { apply add_knowledge_all_wf. unfold knowledge_ids_wf. by rewrite Hk. }
  unfold knowledge_ids_wf in Hwf. fold ids in Hwf.
  assert (ids = str <$> seq 1 (length ids)) as Hids.
  { unfold ids at 2. by rewrite length_fmap. }
  split; [done|]. split.
  - rewrite Hids. apply NoDup_fmap_2; [|apply NoDup_seq].
    intros n m. apply str_inj.
  - intros i j a b Hij Ha Hb. rewrite Hids in Ha, Hb.
    rewrite list_lookup_fmap in Ha, Hb.
    destruct (seq 1 (length ids) !! i) as [m|] eqn:Hm; [|done].
    destruct (seq 1 (length ids) !! j) as [n|] eqn:Hn; [|done].
    simpl in Ha, Hb. injection Ha as <-. injection Hb as <-.
    apply lookup_seq in Hm as [-> _]. apply lookup_seq in Hn as [-> _].
    exists (1 + i), (1 + j). rewrite !int_str. repeat split. lia.
Qed.

Lemma knowledge_ids_unique_increasing_witness :
  knowledge_collection empty_world = []
  /\ cid <$> knowledge_collection
               (add_knowledge_all (quiet_env None)
                  ["a"; "b"; "c"; "d"; "e"; "f"; "g"; "h"; "i"; "j"; "k"]
                  empty_world)
     = ["1"; "2"; "3"; "4"; "5"; "6"; "7"; "8"; "9"; "10"; "11"]
  /\ NoDup (cid <$> knowledge_collection
                      (add_knowledge_all (quiet_env None)
                         ["a"; "b"; "c"; "d"; "e"; "f"; "g"; "h"; "i"; "j";
                          "k"]
                         empty_world)).
Proof.
  split; [reflexivity|]. split; [reflexivity|].
  exact (proj1 (proj2 (knowledge_ids_unique_increasing (quiet_env None)
     ["a"; "b"; "c"; "d"; "e"; "f"; "g"; "h"; "i"; "j"; "k"] empty_world
     eq_refl))).
Defined.

(** ** The document written by [index_email] *)

(** C10.  The document [index_email] sends to the index is the email's field
    dictionary with the sender moved from the key "from_" to the key "from"
    and every other field unchanged, while the request built by
    [trigger_webhook] carries the field dictionary itself, sender under
    "from_". *)
Theorem index_email_renames_from env email w :
  let doc := indexed_document email in
  index_email env email w = es_index env doc w
  /\ doc !! "from" = Some (VStr (Email.from_ email))
  /\ doc !! "from_" = None
  /\ (forall k, k <> "from" -> k <> "from_" ->
        doc !! k = email_dict email !! k)
  /\ webhook_posts (snd (trigger_webhook env email w))
     = webhook_posts w
       ++ [ {| url := webhook_url env; event := "email_interested";
               data := email_dict email; timeout := 5 |} ]
  /\ email_dict email !! "from_" = Some (VStr (Email.from_ email))
  /\ email_dict email !! "from" = None.
Proof.
  cbn zeta. split; [apply index_email_eq|].
  split; [apply indexed_document_from|].
  split; [apply indexed_document_from_|].
  split; [intros k; apply indexed_document_other|].
  split; [|done].
  by destruct (trigger_webhook_frame env email w) as (_ & _ & _ & _ & _ & ->).
Qed.

(** A successful index write stores exactly that document. *)
Lemma index_email_stores env email w :
  es_index_error env w (indexed_document email) = None ->
  index_email env email w
  = (Ok tt, set_es (es_emails w ++ [indexed_document email])
              (S (es_index_calls w)) w).
Proof. intros H. rewrite index_email_eq. unfold es_index. by rewrite H. Qed.

Lemma index_email_renames_from_witness :
  indexed_document demo_email !! "from" = Some (VStr "lead@y.com")
  /\ indexed_document demo_email !! "from_" = None
  /\ indexed_document demo_email !! "subject" = Some (VStr "Re: demo")
  /\ email_dict demo_email !! "from_" = Some (VStr "lead@y.com").
Proof.
  destruct (index_email_renames_from (quiet_env None) demo_email empty_world)
    as (_ & H1 & H2 & H3 & _ & H4 & _).
  split; [exact H1|]. split; [exact H2|]. split; [|exact H4].
  rewrite H3; [reflexivity|discriminate|discriminate].
Defined.

(** ** Search *)

Lemma required_str_ok src k w s w' :
  required_str src k w = (Ok s, w') -> src !! k = Some (VStr s) /\ w' = w.
Proof.
  unfold required_str. destruct (src !! k) as [[]|]; try done.
  by intros [= -> ->].
Qed.

(** An [Email] built from a hit repeats the hit's fields. *)
Lemma email_of_source_ok env src w email w' :
  email_of_source env src w = (Ok email, w') ->
  src !! "body" = Some (VStr (Email.body email))
  /\ src !! "account" = Some (VStr (Email.account email))
  /\ (forall f, src !! "folder" = Some (VStr f) -> Email.folder email = f)
  /\ (forall c, src !! "category" = Some (VStr c) ->
        Email.category email = Some c).
Proof.
  unfold email_of_source, mbind, M_bind.
  destruct (required_str src "uid" w) as [[vuid|?] ?] eqn:H1; [|done].
  apply required_str_ok in H1 as [H1 ->].
  destruct (required_str src "subject" w) as [[vsubject|?] ?] eqn:H2; [|done].
  apply required_str_ok in H2 as [H2 ->].
  destruct (required_str src "body" w) as [[vbody|?] ?] eqn:H3; [|done].
  apply required_str_ok in H3 as [H3 ->].
  destruct (required_str src "from_" w) as [[vfrom|?] ?] eqn:H4; [|done].
  apply required_str_ok in H4 as [H4 ->].
  destruct (required_str src "to" w) as [[vto|?] ?] eqn:H5; [|done].
  apply required_str_ok in H5 as [H5 ->].
  assert (forall d folder w0,
            (account ← required_str src "account";
             category ← match src !! "category" with
                        | None | Some VNone => mret None
                        | Some (VStr s) => mret (Some s)
                        | _ => raise (ValidationError "category")
                        end;
             mret (Email.mk vuid vsubject vbody vfrom vto d folder account category)) w0
            = (Ok email, w') ->
            src !! "body" = Some (VStr (Email.body email))
            /\ src !! "account" = Some (VStr (Email.account email))
            /\ Email.folder email = folder
            /\ (forall c, src !! "category" = Some (VStr c) ->
                  Email.category email = Some c)) as Hrest.
  { intros d folder w0. unfold mbind, M_bind.
    destruct (required_str src "account" w0) as [[?|?] ?] eqn:H6; [|done].
    apply required_str_ok in H6 as [H6 ->].
    destruct (src !! "category") as [[]|] eqn:Hc; try done;
      intros [= <- <-]; simpl; repeat split; try done; congruence. }
  destruct (src !! "date") as [[| s' |d]|]; try done.
  - destruct (parse_datetime env s'); [|done].
    destruct (src !! "folder") as [[]|] eqn:Hf; try done;
      intros (? & ? & ? & ?)%Hrest; repeat split; try done; congruence.
  - destruct (src !! "folder") as [[]|] eqn:Hf; try done;
      intros (? & ? & ? & ?)%Hrest; repeat split; try done; congruence.
Qed.

(** A comprehension that returns has built each element from the element
    at the same place. *)
Lemma mapM_ok {A B} (f : A -> M B) l w r w' :
  mapM f l w = (Ok r, w') ->
  Forall2 (fun x y => exists w1 w2, f x w1 = (Ok y, w2)) l r.
Proof.
  revert w r w'. induction l as [|x l IH]; intros w r w'; simpl.
  - intros [= <- _]. constructor.
  - unfold mbind, M_bind.
    destruct (f x w) as [[y|?] w1] eqn:Hx; [|done].
    destruct (mapM f l w1) as [[r'|?] w2] eqn:Hl; [|done].
    intros [= <- _]. constructor; eauto.
Qed.

Lemma str_truthy_spec s : str_truthy s = true <-> s <> "".
Proof.
  unfold str_truthy. case_bool_decide; simpl; split; congruence.
Qed.

(** The clauses of the query body: one per non-empty argument. *)
Lemma search_body_clauses query :
  (SearchQuery.text query <> "" ->
     In (Match "body" (SearchQuery.text query)) (must (search_body query)))
  /\ (forall a, SearchQuery.account query = Some a -> a <> "" ->
        In (Term "account" a) (filters (search_body query)))
  /\ (forall f, SearchQuery.folder query = Some f -> f <> "" ->
        In (Term "folder" f) (filters (search_body query)))
  /\ (forall c, SearchQuery.category query = Some c -> c <> "" ->
        In (Term "category" c) (filters (search_body query))).
Proof.
  destruct query as [text account folder category].
  unfold search_body. cbn [SearchQuery.text SearchQuery.account
    SearchQuery.folder SearchQuery.category must filters].
  repeat split.
  - intros Ht%str_truthy_spec. rewrite Ht. simpl. auto.
  - intros a -> Ha%str_truthy_spec. cbn [opt_truthy default]. rewrite Ha.
    destruct (opt_truthy folder), (opt_truthy category);
      rewrite ?in_app_iff; simpl; tauto.
  - intros f -> Ha%str_truthy_spec. cbn [opt_truthy default]. rewrite Ha.
    destruct (opt_truthy account), (opt_truthy category);
      rewrite ?in_app_iff; simpl; tauto.
  - intros c -> Ha%str_truthy_spec. cbn [opt_truthy default]. rewrite Ha.
    destruct (opt_truthy account), (opt_truthy folder);
      rewrite ?in_app_iff; simpl; tauto.
Qed.

(** The query body built by [search] holds on a document only if the
    document satisfies the query. *)
Lemma search_body_sound env query doc :
  bool_query_holds env (search_body query) doc = true ->
  doc_satisfies env query doc.
Proof.
  unfold bool_query_holds. intros [Hm Hf]%andb_prop.
  rewrite forallb_forall in Hm, Hf.
  destruct (search_body_clauses query) as (Ct & Ca & Cf & Cc).
  repeat split.
  - intros Ht. specialize (Hm _ (Ct Ht)). simpl in Hm.
    destruct (doc !! "body") as [[]|]; try done. eauto.
  - intros a H1 H2. specialize (Hf _ (Ca a H1 H2)).
    by apply bool_decide_eq_true_1 in Hf.
  - intros f H1 H2. specialize (Hf _ (Cf f H1 H2)).
    by apply bool_decide_eq_true_1 in Hf.
  - intros c H1 H2. specialize (Hf _ (Cc c H1 H2)).
    by apply bool_decide_eq_true_1 in Hf.
Qed.

(** C8.  Provided the engine's ranking only reorders the documents it is
    given, every hit selected for a query satisfies the text term (when one
    is given) and all supplied filters together, and so does every record
    [search] returns. *)
Theorem search_conjunctive env query w :
  (forall q docs, es_rank env q docs ⊆ docs) ->
  (forall hits w', es_search env (search_body query) w = (Ok hits, w') ->
     Forall (doc_satisfies env query) hits)
  /\ (forall emails w', search env query w = (Ok emails, w') ->
        Forall (email_satisfies env query) emails).
Proof.
  intros Hrank.
  assert (forall hits w', es_search env (search_body query) w = (Ok hits, w')
            -> Forall (doc_satisfies env query) hits) as Hhits.
  { intros hits w'. unfold es_search.
    destruct (es_search_error env w); [done|]. intros [= <- _].
    apply Forall_forall. intros doc Hdoc.
    apply subseteq_take, Hrank, list_elem_of_In, filter_In in Hdoc
      as [_ Hdoc].
    by apply search_body_sound. }
  split; [done|]. intros emails w'. unfold search, mbind, M_bind.
  destruct (es_search env (search_body query) w) as [[hits|?] w1] eqn:Hs;
    [|done].
  intros Hm%mapM_ok. specialize (Hhits _ _ eq_refl). clear Hs.
  induction Hm as [|doc email hits emails (w2 & w3 & Hp) _ IH];
    [constructor|].
  apply Forall_cons in Hhits as [Hdoc Hhits]. constructor; [|auto].
  destruct (email_of_source_ok _ _ _ _ _ Hp) as (Hb & Ha & Hf & Hc).
  destruct Hdoc as (Dt & Da & Df & Dc). repeat split.
  - intros Ht. destruct (Dt Ht) as (b & Hb' & Hmatch). congruence.
  - intros a H1 H2. specialize (Da a H1 H2). congruence.
  - intros f H1 H2. auto.
  - intros c H1 H2. auto.
Qed.

(** The four records with categories A, B and accounts X, Y: the query
    account = X and category = A returns the one record that has both. *)
Lemma search_conjunctive_witness :
  (forall q docs, es_rank (quiet_env None) q docs ⊆ docs)
  /\ fst (search (quiet_env None) abxy_query abxy_world)
     = Ok [abxy_email "1" "X" "A"]
  /\ Forall (email_satisfies (quiet_env None) abxy_query)
       [abxy_email "1" "X" "A"].
Proof.
  assert (forall q docs, es_rank (quiet_env None) q docs ⊆ docs) as Hrank
    by (intros q docs; reflexivity).
  split; [exact Hrank|]. split; [reflexivity|].
  exact (proj2 (search_conjunctive (quiet_env None) abxy_query abxy_world
                  Hrank) _ _ eq_refl).
Defined.

(** On documents written by [index_email] the sender is under "from", so
    building the [Email] of a hit fails: [search] raises as soon as one
    such document is selected, and returns the empty list otherwise. *)
Lemma search_indexed_email_raises :
  fst (search (quiet_env None) (SearchQuery.mk "" (Some "a@x.com") None None)
         interested_once)
  = Raise (ValidationError "from_")
  /\ fst (search (quiet_env None)
            (SearchQuery.mk "" (Some "b@x.com") None None) interested_once)
     = Ok [].
Proof. split; reflexivity. Qed.

(** * Further properties of the services *)

(** ** Records and hits *)

(** X1.  Building an [Email] from its own field dictionary gives the email
    back: the dictionary of line 135 loses nothing. *)
Theorem email_dict_round_trip env email w :
  email_of_source env (email_dict email) w = (Ok email, w).
Proof. destruct email as [? ? ? ? ? ? ? ? [c|]]; reflexivity. Qed.

(** The document [index_email] writes cannot be read back: the [Email] of
    line 162 requires the key "from_", which [index_email] has renamed. *)
Lemma indexed_document_unreadable env email w :
  email_of_source env (indexed_document email) w
  = (Raise (ValidationError "from_"), w).
Proof. destruct email as [? ? ? ? ? ? ? ? [c|]]; reflexivity. Qed.

(** Computations that leave the world as they found it. *)
Lemma read_only_ret {A} (a : A) : read_only (mret a).
Proof. by intros w. Qed.

Lemma read_only_raise {A} e : read_only (@raise A e).
Proof. by intros w. Qed.

Lemma read_only_bind {A B} (m : M A) (f : A -> M B) :
  read_only m -> (forall a, read_only (f a)) -> read_only (m ≫= f).
Proof.
  intros Hm Hf w. unfold mbind, M_bind. specialize (Hm w).
  destruct (m w) as [[a|e] w1]; simpl in Hm; subst w1; [apply Hf|done].
Qed.

Lemma read_only_required_str src k : read_only (required_str src k).
Proof.
  unfold required_str.
  destruct (src !! k) as [[]|]; auto using @read_only_ret, @read_only_raise.
Qed.

Lemma read_only_email_of_source env src : read_only (email_of_source env src).
Proof.
  unfold email_of_source.
  repeat (apply read_only_bind; [|intros ?]);
    try apply read_only_required_str; try apply read_only_ret.
  - destruct (src !! "date") as [[| s |]|];
      [| destruct (parse_datetime env s) | |];
      auto using @read_only_ret, @read_only_raise.
  - destruct (src !! "folder") as [[]|];
      auto using @read_only_ret, @read_only_raise.
  - destruct (src !! "category") as [[]|];
      auto using @read_only_ret, @read_only_raise.
Qed.

Lemma read_only_mapM {A B} (f : A -> M B) l :
  (forall a, read_only (f a)) -> read_only (mapM f l).
Proof.
  intros Hf. induction l as [|x l IH]; simpl; [apply read_only_ret|].
  apply read_only_bind; [apply Hf|]. intros y.
  apply read_only_bind; [apply IH|]. intros ys. apply read_only_ret.
Qed.

Lemma read_only_es_search env q : read_only (es_search env q).
Proof. intros w. unfold es_search. by destruct (es_search_error env w). Qed.

Lemma search_read_only_lemma env query w : snd (search env query w) = w.
Proof.
  apply read_only_bind; [apply read_only_es_search|]. intros hits.
  apply read_only_mapM, read_only_email_of_source.
Qed.

(** X3.  [search] only reads: whatever it answers, be it records, the empty
    list or an exception, the index, both vector stores and all call logs
    are as before. *)
Theorem search_read_only env query w :
  es_emails (snd (search env query w)) = es_emails w
  /\ snd (search env query w) = w.
Proof. by rewrite search_read_only_lemma. Qed.

Lemma opt_truthy_spec o :
  opt_truthy o = true <-> exists s, o = Some s /\ s <> "".
Proof.
  destruct o as [s|]; simpl.
  - rewrite str_truthy_spec. split; [eauto|]. by intros (? & [= <-] & ?).
  - split; [done|]. by intros (? & ? & ?).
Qed.

(** The query body has no clause but those of the non-empty arguments. *)
Lemma search_body_clauses_inv query :
  (forall c, In c (must (search_body query)) ->
     c = Match "body" (SearchQuery.text query)
     /\ SearchQuery.text query <> "")
  /\ (forall c, In c (filters (search_body query)) ->
        (exists a, c = Term "account" a
                   /\ SearchQuery.account query = Some a /\ a <> "")
        \/ (exists f, c = Term "folder" f
                      /\ SearchQuery.folder query = Some f /\ f <> "")
        \/ (exists k, c = Term "category" k
                      /\ SearchQuery.category query = Some k /\ k <> "")).
Proof.
  destruct query as [text account folder category].
  unfold search_body. cbn [SearchQuery.text SearchQuery.account
    SearchQuery.folder SearchQuery.category must filters].
  split.
  - intros c. destruct (str_truthy text) eqn:Ht; simpl; [|done].
    apply str_truthy_spec in Ht. intros [<-|[]]. done.
  - intros c.
    destruct (opt_truthy account) eqn:Ha, (opt_truthy folder) eqn:Hf,
      (opt_truthy category) eqn:Hc;
      try (apply opt_truthy_spec in Ha as (a & -> & Ha));
      try (apply opt_truthy_spec in Hf as (f & -> & Hf));
      try (apply opt_truthy_spec in Hc as (k & -> & Hc));
      simpl; intros H; repeat destruct H as [<-|H]; try done;
      eauto 10.
Qed.

(** X2.  The bool query [search] builds selects a document exactly when the
    document matches the text term, if one is given, and carries every
    supplied filter value: nothing more is demanded of it (an empty string
    demands nothing), and nothing less. *)
Theorem search_body_exact env query doc :
  bool_query_holds env (search_body query) doc = true
  <-> doc_satisfies env query doc.
Proof.
  split; [apply search_body_sound|].
  intros (Dt & Da & Df & Dc). unfold bool_query_holds.
  destruct (search_body_clauses_inv query) as [Hm Hf].
  apply andb_true_intro. split; apply forallb_forall; intros c Hc.
  - destruct (Hm c Hc) as [-> Ht]. destruct (Dt Ht) as (b & Hb & Hmatch).
    simpl. by rewrite Hb.
  - destruct (Hf c Hc) as [(a & -> & H1 & H2)|[(f & -> & H1 & H2)
                                               |(k & -> & H1 & H2)]];
      simpl; apply bool_decide_eq_true_2; auto.
Qed.

Lemma search_unreadable env query w :
  (forall q docs, es_rank env q docs ⊆ docs) ->
  Forall written_by_index_email (es_emails w) ->
  search env query w
  = match es_search env (search_body query) w with
    | (Ok [], _) => (Ok [], w)
    | (Ok (_ :: _), _) => (Raise (ValidationError "from_"), w)
    | (Raise e, _) => (Raise e, w)
    end.
Proof.
  intros Hrank Hdocs. unfold search, mbind, M_bind.
  pose proof (read_only_es_search env (search_body query) w) as Hw.
  destruct (es_search env (search_body query) w) as [[hits|e] w1] eqn:Hs;
    simpl in Hw; subst w1; [|done].
  destruct hits as [|doc hits]; [done|].
  assert (doc ∈ es_emails w) as Hin.
  { unfold es_search in Hs. destruct (es_search_error env w); [done|].
    injection Hs as Hs.
    assert (doc ∈ take 10 (es_rank env (search_body query)
              (List.filter (bool_query_holds env (search_body query))
                 (es_emails w)))) as Hd by (rewrite Hs; left).
    apply subseteq_take, Hrank, list_elem_of_In, filter_In in Hd as [Hd _].
    by apply list_elem_of_In. }
  rewrite Forall_forall in Hdocs. destruct (Hdocs _ Hin) as [email ->].
  simpl. unfold mbind, M_bind. by rewrite indexed_document_unreadable.
Qed.

(** ** More on the pipeline *)

(** What one invocation does to the vector store of emails: nothing, or one
    new record under the email's uid. *)
Lemma process_new_email_collection env email w :
  let w' := snd (process_new_email env email w) in
  knowledge_collection w' = knowledge_collection w
  /\ (email_collection w' = email_collection w
      \/ ((Email.uid email ∉ (cid <$> email_collection w))
          /\ (exists c, email_collection w'
                        = email_collection w
                          ++ [email_record env (Email.set_category c email)]))).
Proof.
  cbn zeta. rewrite process_new_email_eq.
  pose proof (categorize_eq env email w) as Hc.
  destruct (categorize env email w) as [[c|e] w1];
    injection Hc as _ ->; [|simpl; auto].
  cbn zeta.
  set (email' := Email.set_category c email).
  set (w1 := log_openai (categorize_request email) w).
  pose proof (es_index_world env (indexed_document email') w1) as Hi.
  destruct (es_index _ _ _) as [[[]|e] w2]; simpl in Hi; subst w2;
    [|simpl; auto].
  match goal with |- context [chroma_add ?e ?c ?i ?d ?m ?t ?w] =>
    set (w2 := w);
    assert (knowledge_collection (snd (chroma_add e c i d m t w2))
            = knowledge_collection w
            /\ (email_collection (snd (chroma_add e c i d m t w2))
                = email_collection w
                \/ ((Email.uid email ∉ (cid <$> email_collection w))
                    /\ (email_collection (snd (chroma_add e c i d m t w2))
                        = email_collection w ++ [email_record env email']))))
      as Hf
  end.
  { unfold chroma_add. destruct (chroma_add_error _ _ _ _); [simpl; auto|].
    case_bool_decide as Hin; [simpl; auto|]. simpl. split; [done|].
    right. split; [|done]. exact Hin. }
  destruct (chroma_add _ _ _ _ _ _ _) as [[[]|e3] w3]; simpl in Hf;
    destruct Hf as [Hk He].
  2: { simpl. split; [done|]. destruct He as [?|[? ?]]; eauto. }
  assert (forall w4, knowledge_collection w4 = knowledge_collection w3 ->
            email_collection w4 = email_collection w3 ->
            knowledge_collection w4 = knowledge_collection w
            /\ (email_collection w4 = email_collection w
                \/ ((Email.uid email ∉ (cid <$> email_collection w))
                    /\ (exists c0, email_collection w4
                          = email_collection w
                            ++ [email_record env
                                  (Email.set_category c0 email)]))))
    as Hdone.
  { intros w4 -> ->. split; [done|]. destruct He as [?|[? ?]]; eauto. }
  case_bool_decide; [|by apply Hdone].
  pose proof (send_slack_notification_frame env email' w3) as Hs.
  destruct (send_slack_notification _ _ _) as [[[]|e4] w4];
    simpl in Hs; destruct Hs as (_ & _ & Hs1 & Hs2 & _);
    [|by apply Hdone].
  pose proof (trigger_webhook_frame env email' w4) as Ht.
  simpl in Ht. destruct Ht as (_ & _ & Ht1 & Ht2 & _).
  simpl. apply Hdone; congruence.
Qed.

(** X5.  The vector store of emails is keyed by the uid alone.  An email whose
    uid the store already holds, from whichever account and with whichever
    body, leaves the store as it is; and the stored identifiers stay
    pairwise distinct. *)
Theorem email_collection_keyed_by_uid env email w :
  let w' := snd (process_new_email env email w) in
  (Email.uid email ∈ (cid <$> email_collection w) ->
   email_collection w' = email_collection w)
  /\ (NoDup (cid <$> email_collection w) ->
      NoDup (cid <$> email_collection w')).
Proof.
  destruct (process_new_email_collection env email w)
    as [_ [He|(Hnin & c & He)]]; cbn zeta; rewrite He.
  - done.
  - split; [done|]. intros Hnd. rewrite fmap_app.
    change (cid <$> [email_record env (Email.set_category c email)])
      with [Email.uid email].
    apply NoDup_app. split; [done|]. split; [|apply NoDup_singleton].
    by intros x Hx ->%list_elem_of_singleton.
Qed.

Lemma email_collection_keyed_by_uid_witness :
  Email.uid demo_email_edited ∈ (cid <$> email_collection interested_once)
  /\ email_collection interested_twice = email_collection interested_once
  /\ document <$> email_collection interested_twice
     = ["Looking forward to Tuesday"].
Proof.
  assert (Email.uid demo_email_edited
          ∈ (cid <$> email_collection interested_once)) as Hin by left.
  split; [exact Hin|]. split; [|reflexivity].
  exact (proj1 (email_collection_keyed_by_uid (quiet_env (Some "Interested"))
                  demo_email_edited interested_once) Hin).
Defined.

(** X6.  Only three things can make [process_new_email] fail once the
    categoriser has answered: the index write, the vector-store write, and
    a Slack error that is not a [SlackApiError].  If none of them occurs,
    the call returns the categorised email, whatever the webhook does and
    even when Slack answers every post with a [SlackApiError]. *)
Theorem process_new_email_returns env email w c rest :
  (forall w' doc, es_index_error env w' doc = None) ->
  (forall w' col id, chroma_add_error env w' col id = None) ->
  (forall w' m e, slack_error env w' m = Some e -> is_SlackApiError e = true) ->
  openai_create env w (categorize_request email) = Ok (c :: rest) ->
  fst (process_new_email env email w) = Ok (Email.set_category c email).
Proof.
  intros Hix Hvs Hsl Ho. rewrite process_new_email_eq, categorize_eq, Ho.
  cbn zeta. unfold es_index. rewrite Hix.
  unfold chroma_add. rewrite Hvs.
  destruct (decide (c = Some "Interested")) as [Hc|Hc].
  - rewrite (bool_decide_eq_true_2 (c = Some "Interested")) by done.
    case_bool_decide;
      ( rewrite send_slack_notification_eq;
        match goal with |- context [slack_error env ?w3 ?m] =>
          destruct (slack_error env w3 m) as [e|] eqn:He end;
        [by rewrite (Hsl _ _ _ He)|done] ).
  - rewrite (bool_decide_eq_false_2 (c = Some "Interested")) by done.
    by case_bool_decide.
Qed.

Lemma process_new_email_returns_witness :
  fst (process_new_email sinks_failing_env demo_email empty_world)
  = Ok (Email.set_category (Some "Interested") demo_email)
  /\ stdout (snd (process_new_email sinks_failing_env demo_email empty_world))
     = ["Slack error: channel_not_found"; "Webhook error: timed out"].
Proof.
  split; [|reflexivity].
  apply (process_new_email_returns sinks_failing_env demo_email empty_world
           (Some "Interested") []).
  - reflexivity.
  - reflexivity.
  - intros w' m e [= <-]. reflexivity.
  - reflexivity.
Defined.

(** X7.  The Slack sink issues its post in every case, and lets an exception
    out exactly when Slack raised one that is not a [SlackApiError]. *)
Theorem send_slack_notification_raises env email w e :
  fst (send_slack_notification env email w) = Raise e
  <-> slack_error env w (slack_message email) = Some e
      /\ is_SlackApiError e = false.
Proof.
  rewrite send_slack_notification_eq.
  destruct (slack_error env w (slack_message email)) as [e'|].
  - destruct (is_SlackApiError e') eqn:He'; simpl.
    + split; [done|]. intros [[= ->] ?]. congruence.
    + split; [by intros [= ->]|]. by intros [[= ->] _].
  - simpl. split; [done|]. by intros [? _].
Qed.

(** X8.  Only the first 1000 characters of the body reach the categoriser: two
    emails with the same subject whose bodies agree on that prefix send
    the same request and are given the same category. *)
Theorem categorize_ignores_tail env e1 e2 w head tail1 tail2 :
  Email.subject e1 = Email.subject e2 ->
  String.length head = 1000 ->
  Email.body e1 = head +:+ tail1 ->
  Email.body e2 = head +:+ tail2 ->
  categorize env e1 w = categorize env e2 w.
Proof.
  intros Hs Hlen H1 H2.
  assert (forall t, prefix (String.length head) (head +:+ t) = head) as Hp.
  { intros t. unfold prefix. clear. induction head as [|a s IH]; simpl.
    - by destruct t.
    - by rewrite IH. }
  rewrite !categorize_eq.
  assert (categorize_request e1 = categorize_request e2) as ->; [|done].
  unfold categorize_request, categorize_prompt.
  by rewrite Hs, H1, H2, <- Hlen, !Hp.
Qed.

(** ** More on the reply engine *)

Lemma insert_by_distance_perm env q r l :
  insert_by_distance env q r l ≡ₚ r :: l.
Proof.
  induction l as [|x l IH]; simpl; [done|].
  destruct (Qle_bool _ _); [|done].
  rewrite IH. apply Permutation_swap.
Qed.

Lemma sorted_by_distance_perm env q l acc :
  foldl (fun acc r => insert_by_distance env q r acc) acc l ≡ₚ acc ++ l.
Proof.
  revert acc. induction l as [|x l IH]; intros acc; simpl.
  - by rewrite app_nil_r.
  - rewrite IH, insert_by_distance_perm.
    by rewrite (Permutation_middle acc l x).
Qed.

(** On a non-empty collection the nearest record exists and belongs to the
    collection. *)
Lemma nearest_one env q l :
  l <> [] -> exists r, nearest env q 1 l = [r] /\ r ∈ l.
Proof.
  intros Hl. unfold nearest.
  pose proof (sorted_by_distance_perm env q l []) as Hp. simpl in Hp.
  destruct (foldl _ [] l) as [|r s] eqn:Hs.
  - apply Permutation_nil in Hp. done.
  - exists r. split; [by destruct s|]. rewrite <- Hp. left.
Qed.

Lemma suggest_reply_eq env email w r :
  chroma_query_error env w = None ->
  nearest env (embedder_encode env (Email.body email)) 1
    (knowledge_collection w) = [r] ->
  suggest_reply env email w
  = (first_choice (openai_create env w (reply_request email (document r))),
     log_openai (reply_request email (document r)) w).
Proof.
  intros Hq Hn.
  unfold suggest_reply, chroma_query, chat_completions_create, mbind, M_bind.
  rewrite Hq. cbn [collection_get fmap list_fmap]. rewrite Hn. simpl.
  fold (reply_request email (document r)).
  destruct (openai_create _ _ _) as [[|c cs]|e]; reflexivity.
Qed.

(** X9.  With a snippet in the knowledge base and the store answering,
    [suggest_reply] sends one generation request, grounded in a stored
    snippet, and hands back the model's first choice unaltered.  A failing
    generation call is passed on as it is; no reply is made up. *)
Theorem suggest_reply_verbatim env email w :
  chroma_query_error env w = None ->
  knowledge_collection w <> [] ->
  exists r, r ∈ knowledge_collection w
    /\ suggest_reply env email w
       = (first_choice
            (openai_create env w (reply_request email (document r))),
          log_openai (reply_request email (document r)) w).
Proof.
  intros Hq Hk.
  destruct (nearest_one env (embedder_encode env (Email.body email)) _ Hk)
    as (r & Hn & Hr).
  exists r. split; [done|]. by apply suggest_reply_eq.
Qed.

Lemma suggest_reply_verbatim_witness :
  exists r,
    r ∈ knowledge_collection
          (add_knowledge_all (quiet_env None) ["Share the booking link."]
             empty_world)
    /\ fst (suggest_reply (quiet_env (Some "Thanks!")) demo_email
              (add_knowledge_all (quiet_env None) ["Share the booking link."]
                 empty_world))
       = first_choice (Ok [Some "Thanks!"]).
Proof.
  destruct (suggest_reply_verbatim (quiet_env (Some "Thanks!")) demo_email
              (add_knowledge_all (quiet_env None) ["Share the booking link."]
                 empty_world) eq_refl ltac:(discriminate))
    as (r & Hr & Heq).
  exists r. split; [exact Hr|]. exact (f_equal fst Heq).
Defined.

Lemma str_fresh n : str (n + 1) ∉ (str <$> seq 1 n).
Proof.
  intros (m & Hm%str_inj & Hin)%list_elem_of_fmap.
  apply list_elem_of_In, in_seq in Hin. lia.
Qed.

Lemma add_knowledge_eq env text w :
  knowledge_ids_wf w ->
  chroma_add_error env w KnowledgeCollection
    (str (length (knowledge_collection w) + 1)) = None ->
  add_knowledge env text w
  = (Ok tt,
     set_collection KnowledgeCollection
       (knowledge_collection w
        ++ [knowledge_record env (length (knowledge_collection w)) text]) w).
Proof.
  intros Hwf He.
  unfold add_knowledge, chroma_get_ids, chroma_add, mbind, M_bind.
  cbn [collection_get]. rewrite length_fmap, He.
  rewrite bool_decide_eq_false_2; [done|].
  rewrite Hwf. apply str_fresh.
Qed.

(** X10.  From a knowledge base numbered 1..n, and unless the store refuses,
    [add_knowledge] appends exactly one snippet: the text as given, the
    embedder's vector for it, and the identifier n+1. *)
Theorem add_knowledge_appends env text w :
  knowledge_ids_wf w ->
  chroma_add_error env w KnowledgeCollection
    (str (length (knowledge_collection w) + 1)) = None ->
  fst (add_knowledge env text w) = Ok tt
  /\ knowledge_collection (snd (add_knowledge env text w))
     = knowledge_collection w
       ++ [knowledge_record env (length (knowledge_collection w)) text]
  /\ email_collection (snd (add_knowledge env text w)) = email_collection w
  /\ es_emails (snd (add_knowledge env text w)) = es_emails w.
Proof. intros Hwf He. by rewrite add_knowledge_eq. Qed.

Lemma add_knowledge_appends_witness :
  knowledge_ids_wf empty_world
  /\ knowledge_collection
       (snd (add_knowledge (quiet_env None) seed_knowledge empty_world))
     = [knowledge_record (quiet_env None) 0 seed_knowledge].
Proof.
  assert (knowledge_ids_wf empty_world) as Hwf by reflexivity.
  split; [exact Hwf|].
  exact (proj1 (proj2 (add_knowledge_appends (quiet_env None) seed_knowledge
                         empty_world Hwf eq_refl))).
Defined.

Lemma send_slack_notification_raises_witness :
  fst (send_slack_notification slack_down_env demo_email empty_world)
  = Raise (OtherError "URLError" "Connection refused").
Proof.
  exact (proj2 (send_slack_notification_raises slack_down_env demo_email
                  empty_world (OtherError "URLError" "Connection refused"))
           (conj eq_refl eq_refl)).
Defined.

Lemma categorize_ignores_tail_witness :
  String.length (filler 1000) = 1000
  /\ Email.body (long_email "Yes, let us talk.")
     <> Email.body (long_email "Please remove me from your list.")
  /\ categorize (quiet_env (Some "Interested"))
       (long_email "Yes, let us talk.") empty_world
     = categorize (quiet_env (Some "Interested"))
         (long_email "Please remove me from your list.") empty_world.
Proof.
  split; [reflexivity|]. split.
  - intros H. apply (f_equal String.length) in H. vm_compute in H.
    discriminate.
  - exact (categorize_ignores_tail (quiet_env (Some "Interested"))
             (long_email "Yes, let us talk.")
             (long_email "Please remove me from your list.") empty_world
             (filler 1000) "Yes, let us talk."
             "Please remove me from your list."
             eq_refl eq_refl eq_refl eq_refl).
Defined.

(** ** The running module *)

Lemma process_new_email_es env email w :
  let w' := snd (process_new_email env email w) in
  es_emails w' = es_emails w
  \/ exists c, es_emails w'
               = es_emails w ++ [indexed_document (Email.set_category c email)].
Proof.
  cbn zeta.
  destruct (categorize env email w) as [[c|e] w1] eqn:Hc.
  - destruct (process_new_email_index env email w c w1 Hc) as [_ He].
    destruct (es_index_error _ _ _); eauto.
  - left. rewrite process_new_email_eq, Hc.
    rewrite categorize_eq in Hc. by injection Hc as _ <-.
Qed.

Lemma suggest_reply_frame env email w :
  let w' := snd (suggest_reply env email w) in
  es_emails w' = es_emails w
  /\ email_collection w' = email_collection w
  /\ knowledge_collection w' = knowledge_collection w
  /\ slack_posts w' = slack_posts w
  /\ webhook_posts w' = webhook_posts w.
Proof.
  unfold suggest_reply, chroma_query, chat_completions_create, list_index,
    mbind, M_bind.
  destruct (chroma_query_error env w); [done|].
  cbn [fmap list_fmap lookup list_lookup].
  destruct (document <$> nearest _ _ _ _) as [|ctx ?]; [done|].
  simpl. destruct (openai_create _ _ _) as [[|? ?]|?]; done.
Qed.

Lemma run_call_knowledge env c w :
  knowledge_collection (run_call env c w) = knowledge_collection w.
Proof.
  destruct c as [email|query|email]; simpl.
  - apply process_new_email_collection.
  - by rewrite search_read_only_lemma.
  - apply suggest_reply_frame.
Qed.

Lemma run_calls_knowledge env calls w :
  knowledge_collection (run_calls env calls w) = knowledge_collection w.
Proof.
  unfold run_calls. revert w.
  induction calls as [|c calls IH]; intros w; simpl; [done|].
  by rewrite IH, run_call_knowledge.
Qed.

(** X11.  After start-up the knowledge base is the seed snippet and stays so:
    none of the served calls adds knowledge.  Every reply is therefore
    requested with the seed text as its context. *)
Theorem replies_grounded_in_seed env w0 calls email :
  knowledge_collection w0 = [] ->
  fst (startup env w0) = Ok tt ->
  let w := run_calls env calls (snd (startup env w0)) in
  knowledge_collection w = [knowledge_record env 0 seed_knowledge]
  /\ (chroma_query_error env w = None ->
      suggest_reply env email w
      = (first_choice
           (openai_create env w (reply_request email seed_knowledge)),
         log_openai (reply_request email seed_knowledge) w)).
Proof.
  intros Hk Hs w.
  assert (knowledge_collection w = [knowledge_record env 0 seed_knowledge])
    as Hw.
  { subst w. rewrite run_calls_knowledge. unfold startup in *.
    assert (knowledge_ids_wf w0) as Hwf
      by (unfold knowledge_ids_wf; by rewrite Hk).
    assert (chroma_add_error env w0 KnowledgeCollection
              (str (length (knowledge_collection w0) + 1)) = None) as He.
    { revert Hs.
      unfold add_knowledge, chroma_get_ids, chroma_add, mbind, M_bind.
      cbn [collection_get]. rewrite length_fmap.
      by destruct (chroma_add_error _ _ _ _). }
    rewrite (add_knowledge_eq env _ w0 Hwf He). simpl. by rewrite Hk. }
  split; [done|]. intros Hq.
  apply (suggest_reply_eq env email w (knowledge_record env 0 seed_knowledge)
           Hq).
  by rewrite Hw.
Qed.

Lemma replies_grounded_in_seed_witness :
  knowledge_collection empty_world = []
  /\ fst (startup (quiet_env (Some "Thanks!")) empty_world) = Ok tt
  /\ document
       <$> knowledge_collection
             (run_calls (quiet_env (Some "Thanks!"))
                [ProcessNewEmail demo_email; SuggestReply demo_email]
                (snd (startup (quiet_env (Some "Thanks!")) empty_world)))
     = [seed_knowledge].
Proof.
  split; [reflexivity|]. split; [reflexivity|].
  exact (f_equal (fmap document)
           (proj1 (replies_grounded_in_seed (quiet_env (Some "Thanks!"))
                     empty_world
                     [ProcessNewEmail demo_email; SuggestReply demo_email]
                     demo_email eq_refl eq_refl))).
Defined.

Lemma run_calls_invariant env (P : World -> Prop) calls w :
  (forall c w, P w -> P (run_call env c w)) ->
  P w -> P (run_calls env calls w).
Proof.
  intros Hstep. unfold run_calls. revert w.
  induction calls as [|c calls IH]; intros w Hw; simpl; auto.
Qed.

(** X4.  The search endpoint never serves a record that the pipeline indexed.
    Starting from an index that holds only documents written by
    [index_email] (the empty index, for one), every index the running
    module reaches holds only such documents, and on it [search] answers
    the empty list when the query selects nothing and raises on the first
    hit otherwise. *)
Theorem search_returns_no_record env w0 calls query :
  (forall q docs, es_rank env q docs ⊆ docs) ->
  Forall written_by_index_email (es_emails w0) ->
  let w := run_calls env calls w0 in
  Forall written_by_index_email (es_emails w)
  /\ search env query w
     = match es_search env (search_body query) w with
       | (Ok [], _) => (Ok [], w)
       | (Ok (_ :: _), _) => (Raise (ValidationError "from_"), w)
       | (Raise e, _) => (Raise e, w)
       end.
Proof.
  intros Hrank H0 w.
  assert (Forall written_by_index_email (es_emails w)) as Hw.
  { apply (run_calls_invariant env
             (fun w => Forall written_by_index_email (es_emails w)));
      [|done].
    intros [email|q|email] w1 Hw1; simpl.
    - destruct (process_new_email_es env email w1) as [->|[c ->]]; [done|].
      apply Forall_app. split; [done|]. repeat constructor. by eexists.
    - by rewrite search_read_only_lemma.
    - by destruct (suggest_reply_frame env email w1) as (-> & _). }
  split; [done|]. by apply search_unreadable.
Qed.

Lemma search_returns_no_record_witness :
  (forall q docs, es_rank (quiet_env (Some "Interested")) q docs ⊆ docs)
  /\ Forall written_by_index_email (es_emails empty_world)
  /\ fst (search (quiet_env (Some "Interested"))
            (SearchQuery.mk "Tuesday" None (Some "INBOX") None)
            (run_calls (quiet_env (Some "Interested"))
               [ProcessNewEmail demo_email] empty_world))
     = Raise (ValidationError "from_").
Proof.
  assert (forall q docs,
            es_rank (quiet_env (Some "Interested")) q docs ⊆ docs) as Hrank
    by (intros q docs; reflexivity).
  assert (Forall written_by_index_email (es_emails empty_world)) as H0
    by constructor.
  split; [exact Hrank|]. split; [exact H0|].
  exact (f_equal fst
           (proj2 (search_returns_no_record (quiet_env (Some "Interested"))
                     empty_world [ProcessNewEmail demo_email]
                     (SearchQuery.mk "Tuesday" None (Some "INBOX") None)
                     Hrank H0))).
Defined.

Lemma email_dict_category email :
  email_dict email !! "category" = Some (opt_value (Email.category email)).
Proof. reflexivity. Qed.

(** X12.  The webhook is called for interested emails only, and never without a
    Slack post before it: in every state the running module reaches, each
    webhook request carries the configured url, the event
    "email_interested", a 5 second time-out and an email of category
    "Interested", and there are at least as many Slack posts as webhook
    requests. *)
Theorem webhook_requests_invariant env w0 calls :
  length (webhook_posts w0) <= length (slack_posts w0) ->
  Forall (interested_request env) (webhook_posts w0) ->
  let w := run_calls env calls w0 in
  length (webhook_posts w) <= length (slack_posts w)
  /\ Forall (interested_request env) (webhook_posts w).
Proof.
  intros Hlen Hall.
  apply (run_calls_invariant env
           (fun w => length (webhook_posts w) <= length (slack_posts w)
                     /\ Forall (interested_request env) (webhook_posts w)));
    [|done].
  intros [email|q|email] w [Hl Hf]; simpl.
  - pose proof (process_new_email_posts env email w) as H. cbn zeta in H.
    destruct (process_new_email env email w) as [[e'|e] w'] eqn:Hp;
      simpl in H |- *.
    + case_bool_decide as Hc.
      * destruct H as [-> ->]. rewrite !length_app. split; [simpl; lia|].
        apply Forall_app. split; [done|]. repeat constructor.
        simpl. by rewrite email_dict_category, Hc.
      * by destruct H as [-> ->].
    + destruct H as [-> [->|(w1 & _ & ->)]]; [done|].
      rewrite length_app. split; [lia|done].
  - by rewrite search_read_only_lemma.
  - by destruct (suggest_reply_frame env email w) as (_ & _ & _ & -> & ->).
Qed.

Lemma webhook_requests_invariant_witness :
  length (webhook_posts empty_world) <= length (slack_posts empty_world)
  /\ length (webhook_posts
               (run_calls slack_down_env
                  [ProcessNewEmail demo_email; ProcessNewEmail demo_email]
                  empty_world))
     <= length (slack_posts
                  (run_calls slack_down_env
                     [ProcessNewEmail demo_email; ProcessNewEmail demo_email]
                     empty_world))
  /\ length (slack_posts
               (run_calls slack_down_env
                  [ProcessNewEmail demo_email; ProcessNewEmail demo_email]
                  empty_world)) = 2.
Proof.
  assert (length (webhook_posts empty_world)
          <= length (slack_posts empty_world)) as Hlen by (simpl; lia).
  split; [exact Hlen|]. split; [|reflexivity].
  exact (proj1 (webhook_requests_invariant slack_down_env empty_world
                  [ProcessNewEmail demo_email; ProcessNewEmail demo_email]
                  Hlen ltac:(constructor))).
Defined.

(** ** The Slack message *)

Lemma string_length_app s t :
  String.length (s +:+ t) = String.length s + String.length t.
Proof. induction s as [|a s IH]; simpl; [done|]. by rewrite IH. Qed.

Lemma prefix_length n s : String.length (prefix n s) = min n (String.length s).
Proof.
  unfold prefix. revert s.
  induction n as [|n IH]; intros [|a s]; simpl; try done.
  by rewrite IH.
Qed.

Lemma prefix_short n s : String.length s <= n -> prefix n s = s.
Proof.
  unfold prefix. revert s.
  induction n as [|n IH]; intros [|a s]; simpl; intros H; try done; try lia.
  rewrite IH; [done|lia].
Qed.

(** X13.  The Slack message has two blocks.  The second shows the body cut to
    200 characters and followed by three dots, so it never exceeds 214
    characters however long the email is; a body of at most 200 characters
    is shown whole. *)
Theorem slack_preview_bounded email :
  exists header preview,
    blocks (slack_message email) = [header; preview]
    /\ String.length preview <= 214
    /\ (String.length (Email.body email) <= 200 ->
        preview = "*Preview:* " +:+ Email.body email +:+ "...").
Proof.
  eexists _, _. split; [reflexivity|]. split.
  - rewrite !string_length_app, prefix_length.
    change (String.length "*Preview:* ") with 11.
    change (String.length "...") with 3. lia.
  - intros H. by rewrite prefix_short.
Qed.

Lemma slack_preview_bounded_witness :
  exists header preview,
    blocks (slack_message (long_email "tail")) = [header; preview]
    /\ String.length preview <= 214.
Proof.
  destruct (slack_preview_bounded (long_email "tail"))
    as (header & preview & H1 & H2 & _).
  exists header, preview. exact (conj H1 H2).
Defined.
